(** * RoomCraft marketplace: the messaging store of [marketplace.py]

    A shallow embedding of [MarketplaceManager] (listings, conversations,
    inbox summaries, read flags, JSON persistence) and the properties of its
    specification.

    Modelling conventions.
    - A Python [dict] with string keys is an association list in insertion
      order; [dict_set] overwrites in place or appends, as [d[k] = v] does.
    - [self.data] is kept typed ([Data]); the Python object it stands for is
      the document [data_to_json] builds, which is also what [json.dump]
      writes.  [json.load] is taken at the level of the parsed document.
    - [str(uuid4())] and [time.time()] read the environment: the sixteen
      random bytes and the clock value are arguments of the operations.
    - A finite float is identified by its position in the increasing
      enumeration of the finite doubles, both zeros at position 0, so that
      [==], [<] and the truth value of floats are [=], [<] and [<> 0] on
      positions. *)

From Stdlib Require Import ZArith NArith List String Ascii Bool Lia.
From Stdlib Require Import Permutation Sorted.
Import ListNotations.

Local Open Scope string_scope.
Local Open Scope list_scope.

Local Set Warnings "-register-all".

(** ** JSON documents and Python truth values *)

Definition pyfloat := Z.

Inductive json : Type :=
| JNull
| JBool (b : bool)
| JInt (z : Z)
| JFloat (x : pyfloat)
| JStr (s : string)
| JArr (l : list json)
| JObj (o : list (string * json)).

(** [bool(v)] for a value that came out of [json.load]. *)
Definition truthy (v : json) : bool :=
  match v with
  | JNull => false
  | JBool b => b
  | JInt z => negb (z =? 0)%Z
  | JFloat x => negb (x =? 0)%Z
  | JStr s => negb (s =? "")
  | JArr l => match l with [] => false | _ => true end
  | JObj o => match o with [] => false | _ => true end
  end.

(** Python's [all]. *)
Definition all (l : list json) : bool := forallb truthy l.

(** ** Dictionaries *)

Section Dict.
Context {V : Type}.

Definition dict := list (string * V).

Fixpoint dict_get (k : string) (d : dict) : option V :=
  match d with
  | [] => None
  | (k', v) :: d' => if k =? k' then Some v else dict_get k d'
  end.

(** [k in d] *)
Definition dict_has (k : string) (d : dict) : bool :=
  match dict_get k d with Some _ => true | None => false end.

(** [d[k] = v] *)
Fixpoint dict_set (k : string) (v : V) (d : dict) : dict :=
  match d with
  | [] => [(k, v)]
  | (k', v') :: d' =>
      if k =? k' then (k', v) :: d' else (k', v') :: dict_set k v d'
  end.

(** In-place mutation of the object stored under [k]; the source only
    does this for a key it has just read from the dictionary. *)
Fixpoint dict_adjust (f : V -> V) (k : string) (d : dict) : dict :=
  match d with
  | [] => []
  | (k', v') :: d' =>
      if k =? k' then (k', f v') :: d' else (k', v') :: dict_adjust f k d'
  end.

Definition keys (d : dict) : list string := map fst d.
Definition values (d : dict) : list V := map snd d.
End Dict.

Arguments dict V : clear implicits.

(** [d.get(k)], with [None] read as JSON [null]. *)
Definition py_get (k : string) (d : dict json) : json :=
  match dict_get k d with Some v => v | None => JNull end.

(** [x in l] for a list of strings. *)
Definition mem (x : string) (l : list string) : bool :=
  existsb (String.eqb x) l.

(** ** [str(uuid4())] *)

Definition hex_digit (n : N) : ascii :=
  match n with
  | 0%N => "0" | 1%N => "1" | 2%N => "2" | 3%N => "3"
  | 4%N => "4" | 5%N => "5" | 6%N => "6" | 7%N => "7"
  | 8%N => "8" | 9%N => "9" | 10%N => "a" | 11%N => "b"
  | 12%N => "c" | 13%N => "d" | 14%N => "e" | _ => "f"
  end%char.

(** ['%0kx' % n], the low [k] hexadecimal digits of [n], in front of [acc]. *)
Fixpoint hex_digits (k : nat) (n : N) (acc : string) : string :=
  match k with
  | O => acc
  | S k' => hex_digits k' (N.div n 16) (String (hex_digit (N.modulo n 16)) acc)
  end.

(** [uuid.uuid4()]: sixteen random bytes with the variant and version
    bits forced. *)
Definition uuid4 (rnd : N) : N :=
  let i := N.modulo rnd (2 ^ 128) in
  let i := N.ldiff i (N.shiftl 0xc000 48) in
  let i := N.lor i (N.shiftl 0x8000 48) in
  let i := N.ldiff i (N.shiftl 0xf000 64) in
  N.lor i (N.shiftl 4 76).

(** [UUID.__str__]: thirty-two digits cut 8-4-4-4-12. *)
Definition str_uuid (u : N) : string :=
  let hex := hex_digits 32 u "" in
  substring 0 8 hex ++ "-" ++ substring 8 4 hex ++ "-" ++
  substring 12 4 hex ++ "-" ++ substring 16 4 hex ++ "-" ++
  substring 20 12 hex.

(** ** Data model *)

Record Listing := {
  l_id : string;
  name : json;
  description : json;
  price : json;
  category : json;
  owner : string
}.

Record Message := {
  sender : string;
  content : string;
  timestamp : pyfloat;
  read : bool
}.

(** [item_info] is the key [get_conversation_api] adds: [None] while the
    key is absent, [Some None] for [null], [Some (Some l)] for a listing.
    Listing objects are never mutated, so the alias the source stores is
    the same as a copy. *)
Record Conversation := {
  c_id : string;
  item_id : string;
  participants : list string;
  messages : list Message;
  item_info : option (option Listing)
}.

Record Data := {
  listings : dict Listing;
  conversations : dict Conversation
}.

(** ** The persisted document *)

Definition listing_to_json (l : Listing) : json :=
  JObj [("id", JStr (l_id l)); ("name", name l);
        ("description", description l); ("price", price l);
        ("category", category l); ("owner", JStr (owner l))].

Definition message_to_json (m : Message) : json :=
  JObj [("sender", JStr (sender m)); ("content", JStr (content m));
        ("timestamp", JFloat (timestamp m)); ("read", JBool (read m))].

Definition item_info_to_json (i : option (option Listing))
  : list (string * json) :=
  match i with
  | None => []
  | Some None => [("item_info", JNull)]
  | Some (Some l) => [("item_info", listing_to_json l)]
  end.

Definition convo_to_json (c : Conversation) : json :=
  JObj ([("id", JStr (c_id c)); ("item_id", JStr (item_id c));
         ("participants", JArr (map JStr (participants c)));
         ("messages", JArr (map message_to_json (messages c)))]
        ++ item_info_to_json (item_info c)).

Definition dict_to_json {V} (f : V -> json) (d : dict V) : json :=
  JObj (map (fun kv => (fst kv, f (snd kv))) d).

Definition data_to_json (d : Data) : json :=
  JObj [("listings", dict_to_json listing_to_json (listings d));
        ("conversations", dict_to_json convo_to_json (conversations d))].

(** Reading a document back as typed data; [None] when the document does
    not have the layout above. *)

Definition as_str (j : option json) : option string :=
  match j with Some (JStr s) => Some s | _ => None end.

Fixpoint sequence {A} (l : list (option A)) : option (list A) :=
  match l with
  | [] => Some []
  | Some a :: l' =>
      match sequence l' with Some r => Some (a :: r) | None => None end
  | None :: _ => None
  end.

Definition listing_of_json (j : json) : option Listing :=
  match j with
  | JObj o =>
      match as_str (dict_get "id" o), dict_get "name" o,
            dict_get "description" o, dict_get "price" o,
            dict_get "category" o, as_str (dict_get "owner" o) with
      | Some i, Some n, Some d, Some p, Some c, Some w =>
          Some {| l_id := i; name := n; description := d; price := p;
                  category := c; owner := w |}
      | _, _, _, _, _, _ => None
      end
  | _ => None
  end.

Definition message_of_json (j : json) : option Message :=
  match j with
  | JObj o =>
      match as_str (dict_get "sender" o), as_str (dict_get "content" o),
            dict_get "timestamp" o, dict_get "read" o with
      | Some s, Some c, Some (JFloat t), Some (JBool r) =>
          Some {| sender := s; content := c; timestamp := t; read := r |}
      | _, _, _, _ => None
      end
  | _ => None
  end.

Definition item_info_of_json (j : option json)
  : option (option (option Listing)) :=
  match j with
  | None => Some None
  | Some JNull => Some (Some None)
  | Some j' =>
      match listing_of_json j' with
      | Some l => Some (Some (Some l))
      | None => None
      end
  end.

Definition convo_of_json (j : json) : option Conversation :=
  match j with
  | JObj o =>
      match as_str (dict_get "id" o), as_str (dict_get "item_id" o),
            dict_get "participants" o, dict_get "messages" o,
            item_info_of_json (dict_get "item_info" o) with
      | Some i, Some it, Some (JArr ps), Some (JArr ms), Some info =>
          match sequence (map (fun p => as_str (Some p)) ps),
                sequence (map message_of_json ms) with
          | Some ps', Some ms' =>
              Some {| c_id := i; item_id := it; participants := ps';
                      messages := ms'; item_info := info |}
          | _, _ => None
          end
      | _, _, _, _, _ => None
      end
  | _ => None
  end.

Definition dict_of_json {V} (f : json -> option V) (j : option json)
  : option (dict V) :=
  match j with
  | Some (JObj o) =>
      sequence (map (fun kv =>
                       match f (snd kv) with
                       | Some v => Some (fst kv, v)
                       | None => None
                       end) o)
  | _ => None
  end.

Definition data_of_json (j : json) : option Data :=
  match j with
  | JObj o =>
      match dict_of_json listing_of_json (dict_get "listings" o),
            dict_of_json convo_of_json (dict_get "conversations" o) with
      | Some ls, Some cs => Some {| listings := ls; conversations := cs |}
      | _, _ => None
      end
  | _ => None
  end.

(** ** The manager: the store in memory and the file on disk *)

(** What [json.load] makes of the text of the file: a document, or, for
    [Corrupted], a text that is not valid JSON, on which it raises
    [json.JSONDecodeError].  A file that cannot be opened, or whose bytes do
    not read as text, makes the constructor raise another exception, which
    the source does not catch: such files give no manager and are not
    represented. *)
Inductive FileContent :=
| Corrupted
| Document (j : json).

(** [None] when [os.path.exists] is false. *)
Definition File := option FileContent.

Record Manager := {
  data : Data;
  file : File
}.

Definition default_data : Data := {| listings := []; conversations := [] |}.

(** [_load_data], as the document the manager starts from; the
    [Corrupted] case is the [except json.JSONDecodeError] branch. *)
Definition _load_data (f : File) : json :=
  match f with
  | Some (Document j) => j
  | Some Corrupted => data_to_json default_data
  | None => data_to_json default_data
  end.

(** [_save_data] *)
Definition _save_data (m : Manager) : Manager :=
  {| data := data m; file := Some (Document (data_to_json (data m))) |}.

(** [MarketplaceManager()], typed; [None] when the file holds a document
    of another layout. *)
Definition __init__ (f : File) : option Manager :=
  match data_of_json (_load_data f) with
  | Some d => Some {| data := d; file := f |}
  | None => None
  end.

(** ** Results *)

(** [{"success": False, "message": e}] and
    [{"success": True, "message": msg, <payload>}]. *)
Inductive Response (A : Type) :=
| Failed (message : string)
| Ok (message : option string) (payload : A).

Arguments Failed {A} message.
Arguments Ok {A} message payload.

Definition success {A} (r : Response A) : bool :=
  match r with Failed _ => false | Ok _ _ => true end.

(** The specification's names for the five failures. *)
Definition ValidationFailed := "All fields are required.".
Definition ItemNotFound := "Item not found.".
Definition SelfMessage := "You cannot message yourself.".
Definition ConversationNotFound := "Conversation not found.".
Definition Unauthorized := "Unauthorized access.".

(** Exceptions the inbox loop can raise on a malformed conversation. *)
Inductive PyExc := StopIteration | IndexError.

Inductive Raises (A : Type) :=
| Raise (e : PyExc)
| Return (a : A).

Arguments Raise {A} e.
Arguments Return {A} a.

Definition bind {A B} (x : Raises A) (k : A -> Raises B) : Raises B :=
  match x with Raise e => Raise e | Return a => k a end.

Notation "x <- c ;; k" := (bind c (fun x => k))
  (at level 61, c at next level, right associativity).

(** ** Listings *)

Definition set_listings (ls : dict Listing) (m : Manager) : Manager :=
  {| data := {| listings := ls; conversations := conversations (data m) |};
     file := file m |}.

Definition set_conversations (cs : dict Conversation) (m : Manager)
  : Manager :=
  {| data := {| listings := listings (data m); conversations := cs |};
     file := file m |}.

Definition get_all_items_api (m : Manager) : list Listing :=
  values (listings (data m)).

(** [create_listing_api].  The typed store always has its [listings]
    dictionary, so the branch that creates a missing one is not there. *)
Definition create_listing_api (item_data : dict json) (owner : string)
  (rnd : N) (m : Manager) : Response Listing * Manager :=
  let name := py_get "name" item_data in
  let description := py_get "description" item_data in
  let price := py_get "price" item_data in
  let category := py_get "category" item_data in
  if negb (all [name; description; price; category]) then
    (Failed ValidationFailed, m)
  else
    let listing_id := str_uuid (uuid4 rnd) in
    let listing := {| l_id := listing_id; name := name;
                      description := description; price := price;
                      category := category; owner := owner |} in
    let m := set_listings (dict_set listing_id listing (listings (data m))) m in
    let m := _save_data m in
    (Ok (Some "Listing created successfully!") listing, m).

(** ** Messaging *)

(** The search loop of [send_message_api]: the first conversation, in
    dictionary order, about the item with both users among its
    participants. *)
Fixpoint find_convo (item sender recipient : string)
  (items : list (string * Conversation)) : option string :=
  match items with
  | [] => None
  | (cid, convo) :: rest =>
      if (item_id convo =? item) && mem sender (participants convo)
         && mem recipient (participants convo)
      then Some cid
      else find_convo item sender recipient rest
  end.

Definition add_message (message : Message) (convo : Conversation)
  : Conversation :=
  {| c_id := c_id convo; item_id := item_id convo;
     participants := participants convo;
     messages := messages convo ++ [message];
     item_info := item_info convo |}.

(** The dictionary a first message creates. *)
Definition new_convo (new_convo_id item sender recipient : string)
  (message : Message) : Conversation :=
  {| c_id := new_convo_id; item_id := item;
     participants := [sender; recipient];
     messages := [message]; item_info := None |}.

(** [if convo_id:] is false for [None] and for the empty string. *)
Definition if_convo_id (convo_id : option string) : option string :=
  match convo_id with
  | Some cid => if cid =? "" then None else Some cid
  | None => None
  end.

(** [send_message_api]; [now] is what [time.time()] returns and [rnd] what
    [uuid4] draws if a conversation has to be created. *)
Definition send_message_api (item sender content : string)
  (now : pyfloat) (rnd : N) (m : Manager) : Response unit * Manager :=
  match dict_get item (listings (data m)) with
  | None => (Failed ItemNotFound, m)
  | Some listing =>
      let recipient := owner listing in
      if sender =? recipient then (Failed SelfMessage, m)
      else
        let convo_id :=
          find_convo item sender recipient (conversations (data m)) in
        let message := {| sender := sender; content := content;
                          timestamp := now; read := false |} in
        let m :=
          match if_convo_id convo_id with
          | Some cid =>
              set_conversations
                (dict_adjust (add_message message) cid
                   (conversations (data m))) m
          | None =>
              let new_convo_id := str_uuid (uuid4 rnd) in
              set_conversations
                (dict_set new_convo_id
                   (new_convo new_convo_id item sender recipient message)
                   (conversations (data m))) m
          end in
        let m := _save_data m in
        (Ok (Some "Message sent successfully.") tt, m)
  end.

(** ** Inbox *)

Record Summary := {
  convo_id : string;
  item_name : json;
  other_participant : string;
  last_message : Message;
  unread_count : nat
}.

(** The counting loop: messages not read and not sent by [username]. *)
Fixpoint count_unread (username : string) (msgs : list Message) : nat :=
  match msgs with
  | [] => 0
  | msg :: rest =>
      if negb (read msg) && negb (sender msg =? username)
      then S (count_unread username rest)
      else count_unread username rest
  end.

(** [next(p for p in ps if p != username)] *)
Definition next_other (username : string) (ps : list string)
  : Raises string :=
  match find (fun p => negb (p =? username)) ps with
  | Some p => Return p
  | None => Raise StopIteration
  end.

(** [msgs[-1]] *)
Definition last_of (msgs : list Message) : Raises Message :=
  match rev msgs with
  | msg :: _ => Return msg
  | [] => Raise IndexError
  end.

Definition summarize (username : string) (ls : dict Listing)
  (cid : string) (convo : Conversation) : Raises Summary :=
  let item := dict_get (item_id convo) ls in
  other <- next_other username (participants convo) ;;
  let unread := count_unread username (messages convo) in
  last <- last_of (messages convo) ;;
  Return {| convo_id := cid;
            item_name := match item with
                         | Some l => name l
                         | None => JStr "Deleted Item"
                         end;
            other_participant := other;
            last_message := last;
            unread_count := unread |}.

Fixpoint inbox_loop (username : string) (ls : dict Listing)
  (items : list (string * Conversation)) (user_inbox : list Summary)
  : Raises (list Summary) :=
  match items with
  | [] => Return user_inbox
  | (cid, convo) :: rest =>
      if mem username (participants convo) then
        summary <- summarize username ls cid convo ;;
        inbox_loop username ls rest (user_inbox ++ [summary])
      else inbox_loop username ls rest user_inbox
  end.

(** [list.sort(key=..., reverse=True)] is stable: summaries come out by
    decreasing timestamp of the last message, equal timestamps in their
    order of arrival.  Insertion from the right computes that list. *)
Definition sort_key (x : Summary) : pyfloat := timestamp (last_message x).

Fixpoint insert_desc (x : Summary) (l : list Summary) : list Summary :=
  match l with
  | [] => [x]
  | y :: l' =>
      if (sort_key x <? sort_key y)%Z then y :: insert_desc x l'
      else x :: y :: l'
  end.

Definition sort_desc (l : list Summary) : list Summary :=
  fold_right insert_desc [] l.

(** [get_inbox_api]; it reads the store and leaves it as it is. *)
Definition get_inbox_api (username : string) (m : Manager)
  : Raises (list Summary) :=
  user_inbox <- inbox_loop username (listings (data m))
                  (conversations (data m)) [] ;;
  Return (sort_desc user_inbox).

(** ** Reading a conversation *)

Definition mark_read (username : string) (message : Message) : Message :=
  if negb (sender message =? username) then
    {| sender := sender message; content := content message;
       timestamp := timestamp message; read := true |}
  else message.

Definition set_messages (msgs : list Message) (convo : Conversation)
  : Conversation :=
  {| c_id := c_id convo; item_id := item_id convo;
     participants := participants convo; messages := msgs;
     item_info := item_info convo |}.

Definition set_item_info (item : option Listing) (convo : Conversation)
  : Conversation :=
  {| c_id := c_id convo; item_id := item_id convo;
     participants := participants convo; messages := messages convo;
     item_info := Some item |}.

(** The marking loop, on the conversation object. *)
Definition read_all (username : string) (convo : Conversation)
  : Conversation :=
  set_messages (map (mark_read username) (messages convo)) convo.

(** [get_conversation_api]: mark, save, and only then attach [item_info]
    to the stored conversation, which is also the object returned. *)
Definition get_conversation_api (cid username : string) (m : Manager)
  : Response Conversation * Manager :=
  match dict_get cid (conversations (data m)) with
  | None => (Failed ConversationNotFound, m)
  | Some convo =>
      if negb (mem username (participants convo)) then
        (Failed Unauthorized, m)
      else
        let m :=
          set_conversations
            (dict_adjust (read_all username) cid (conversations (data m)))
            m in
        let m := _save_data m in
        let item := dict_get (item_id convo) (listings (data m)) in
        let m :=
          set_conversations
            (dict_adjust (set_item_info item) cid (conversations (data m)))
            m in
        (Ok None (set_item_info item (read_all username convo)), m)
  end.

(** ** Runs *)

Inductive Call :=
| CreateListing (item_data : dict json) (owner : string) (rnd : N)
| SendMessage (item sender content : string) (now : pyfloat) (rnd : N)
| GetInbox (username : string)
| GetConversation (cid username : string).

Definition run (c : Call) (m : Manager) : Manager :=
  match c with
  | CreateListing item_data owner rnd =>
      snd (create_listing_api item_data owner rnd m)
  | SendMessage item sender content now rnd =>
      snd (send_message_api item sender content now rnd m)
  | GetInbox _ => m
  | GetConversation cid username =>
      snd (get_conversation_api cid username m)
  end.

(** The manager of a process started without a data file. *)
Definition empty_store : Manager := {| data := default_data; file := None |}.

Inductive reachable : Manager -> Prop :=
| reachable_empty : reachable empty_store
| reachable_run c m : reachable m -> reachable (run c m).

Definition run_all (cs : list Call) (m : Manager) : Manager :=
  fold_left (fun m c => run c m) cs m.

(** ** Vocabulary of the properties *)

Definition set_eqb (l1 l2 : list string) : bool :=
  forallb (fun x => mem x l2) l1 && forallb (fun x => mem x l1) l2.

(** [c] is a conversation about [item] whose participants, as a set, are
    [a] and [b]. *)
Definition is_thread (item a b : string) (c : Conversation) : bool :=
  (item_id c =? item) && set_eqb (participants c) [a; b].

(** Number of stored conversations for an item and an unordered pair. *)
Definition thread_count (item a b : string) (d : Data) : nat :=
  List.length (filter (is_thread item a b) (values (conversations d))).

(** The test of the search loop in [send_message_api]. *)
Definition matches (item s r : string) (c : Conversation) : bool :=
  (item_id c =? item) && mem s (participants c) && mem r (participants c).

(** Shape of a stored conversation: filed under its own id, a non-empty
    key, two distinct participants, at least one message. *)
Definition convo_ok (kc : string * Conversation) : Prop :=
  c_id (snd kc) = fst kc
  /\ fst kc <> ""
  /\ (exists a b, participants (snd kc) = [a; b] /\ a <> b)
  /\ messages (snd kc) <> [].

Definition store_inv (d : Data) : Prop :=
  Forall convo_ok (conversations d)
  /\ NoDup (keys (conversations d))
  /\ forall item a b, thread_count item a b d <= 1.

(** Number of conversations of a dictionary that satisfy [p]. *)
Definition count (p : Conversation -> bool) (d : dict Conversation) : nat :=
  List.length (filter p (values d)).

(** What a successful [send_message_api] does to the conversations. *)
Definition sent (item s r : string) (msg : Message) (rnd : N)
  (cs : dict Conversation) : dict Conversation :=
  match if_convo_id (find_convo item s r cs) with
  | Some cid => dict_adjust (add_message msg) cid cs
  | None =>
      dict_set (str_uuid (uuid4 rnd))
        (new_convo (str_uuid (uuid4 rnd)) item s r msg) cs
  end.

(** What a call reports when it fails. *)
Definition failure (c : Call) (m : Manager) : option string :=
  match c with
  | CreateListing item_data owner rnd =>
      match fst (create_listing_api item_data owner rnd m) with
      | Failed e => Some e
      | Ok _ _ => None
      end
  | SendMessage item sender content now rnd =>
      match fst (send_message_api item sender content now rnd m) with
      | Failed e => Some e
      | Ok _ _ => None
      end
  | GetInbox _ => None
  | GetConversation cid username =>
      match fst (get_conversation_api cid username m) with
      | Failed e => Some e
      | Ok _ _ => None
      end
  end.

(** The four fields [create_listing_api] reads. *)
Definition required_fields : list string :=
  ["name"; "description"; "price"; "category"].

(** The reading of "missing or empty" in the statement of the
    specification: the key is absent, or its value is [null], an empty
    string, an empty array or an empty object. *)
Definition missing_or_empty (k : string) (item_data : dict json) : bool :=
  match dict_get k item_data with
  | None => true
  | Some JNull => true
  | Some (JStr s) => s =? ""
  | Some (JArr []) => true
  | Some (JObj []) => true
  | Some _ => false
  end.

(** The listing [create_listing_api] builds. *)
Definition listing_of (item_data : dict json) (owner : string) (rnd : N)
  : Listing :=
  {| l_id := str_uuid (uuid4 rnd);
     name := py_get "name" item_data;
     description := py_get "description" item_data;
     price := py_get "price" item_data;
     category := py_get "category" item_data;
     owner := owner |}.

(** Messages of [c] that are unread and were not sent by [u]. *)
Definition unread_for (u : string) (c : Conversation) : nat :=
  List.length
    (filter (fun msg => negb (read msg) && negb (sender msg =? u))
       (messages c)).

(** The conversations [u] takes part in, in dictionary order. *)
Definition conversations_of (u : string) (d : Data)
  : dict Conversation :=
  filter (fun kc => mem u (participants (snd kc))) (conversations d).

(** The identifier [uuid4] hands to a call is not yet a conversation id. *)
Definition draws_fresh_id (c : Call) (m : Manager) : Prop :=
  match c with
  | SendMessage _ _ _ _ rnd =>
      dict_get (str_uuid (uuid4 rnd)) (conversations (data m)) = None
  | _ => True
  end.

Fixpoint fresh_run (cs : list Call) (m : Manager) : Prop :=
  match cs with
  | [] => True
  | c :: cs' => draws_fresh_id c m /\ fresh_run cs' (run c m)
  end.

(** One step in the life of a stored conversation: untouched, one unread
    message appended, or read by [u] and given its [item_info]. *)
Inductive evolves (call : Call) (m : Manager) (cid : string)
  (c : Conversation) : Conversation -> Prop :=
| evolves_same : evolves call m cid c c
| evolves_message msg :
    read msg = false ->
    (exists item rnd, call = SendMessage item (sender msg) (content msg)
                               (timestamp msg) rnd) ->
    evolves call m cid c (add_message msg c)
| evolves_read u :
    call = GetConversation cid u ->
    In u (participants c) ->
    evolves call m cid c
      (set_item_info (dict_get (item_id c) (listings (data m)))
         (read_all u c)).

(** Looking into a document. *)
Definition json_field (k : string) (j : option json) : option json :=
  match j with
  | Some (JObj o) => dict_get k o
  | _ => None
  end.

(** The object the file holds for conversation [cid]. *)
Definition persisted_convo (cid : string) (f : File) : option json :=
  match f with
  | Some (Document j) =>
      json_field cid (json_field "conversations" (Some j))
  | _ => None
  end.

(** Order of the inbox: the earlier summary has the later last message. *)
Definition desc (x y : Summary) : Prop := (sort_key y <= sort_key x)%Z.

(** The summaries whose last message has timestamp [t]. *)
Definition at_time (t : pyfloat) (l : list Summary) : list Summary :=
  filter (fun s => (sort_key s =? t)%Z) l.

(** ** The scenario of the specification

    alice lists a lamp, bob writes to her about it, alice opens the
    conversation. *)

Definition lamp : dict json :=
  [("name", JStr "Lamp"); ("description", JStr "A desk lamp");
   ("price", JInt 12); ("category", JStr "lighting")].

(** A lamp given away: every field is there, the price is the number 0. *)
Definition free_lamp : dict json :=
  [("name", JStr "Lamp"); ("description", JStr "A desk lamp");
   ("price", JInt 0); ("category", JStr "lighting")].

Definition lamp_id : string := "00000000-0000-4000-8000-000000000007".
Definition thread_id : string := "00000000-0000-4000-8000-000000000008".

Definition lamp_listing : Listing :=
  {| l_id := lamp_id; name := JStr "Lamp"; description := JStr "A desk lamp";
     price := JInt 12; category := JStr "lighting"; owner := "alice" |}.

Definition store1 : Manager := run (CreateListing lamp "alice" 7) empty_store.

Definition store2 : Manager :=
  run (SendMessage lamp_id "bob" "interested!" 100%Z 8) store1.

Definition first_message : Message :=
  {| sender := "bob"; content := "interested!"; timestamp := 100%Z;
     read := false |}.

Definition thread : Conversation :=
  new_convo thread_id lamp_id "bob" "alice" first_message.

Definition store3 : Manager := run (GetConversation thread_id "alice") store2.

(** carol writes about the lamp too, later than bob. *)
Definition store4 : Manager :=
  run (SendMessage lamp_id "carol" "me too" 200%Z 9) store2.

(** ** Further vocabulary for the store *)

(** Shape of a stored listing: filed under its own id, a non-empty key,
    the four fields true in Python's sense. *)
Definition listing_ok (kl : string * Listing) : Prop :=
  l_id (snd kl) = fst kl
  /\ fst kl <> ""
  /\ truthy (name (snd kl)) = true
  /\ truthy (description (snd kl)) = true
  /\ truthy (price (snd kl)) = true
  /\ truthy (category (snd kl)) = true.

(** A conversation without its [item_info] key. *)
Definition clear_item_info (c : Conversation) : Conversation :=
  {| c_id := c_id c; item_id := item_id c; participants := participants c;
     messages := messages c; item_info := None |}.

Definition forget_item_info (d : Data) : Data :=
  {| listings := listings d;
     conversations :=
       map (fun kc => (fst kc, clear_item_info (snd kc))) (conversations d) |}.

(** The identifier [uuid4] hands to [create_listing_api] is not yet a
    listing id. *)
Definition draws_fresh_listing_id (c : Call) (m : Manager) : Prop :=
  match c with
  | CreateListing _ _ rnd =>
      dict_get (str_uuid (uuid4 rnd)) (listings (data m)) = None
  | _ => True
  end.

Fixpoint fresh_listing_run (cs : list Call) (m : Manager) : Prop :=
  match cs with
  | [] => True
  | c :: cs' => draws_fresh_listing_id c m /\ fresh_listing_run cs' (run c m)
  end.

(** The clock read by the messages of a run never goes back, starting
    from [t]. *)
Fixpoint clock_run (t : pyfloat) (cs : list Call) : Prop :=
  match cs with
  | [] => True
  | SendMessage _ _ _ now _ :: cs' => (t <= now)%Z /\ clock_run now cs'
  | _ :: cs' => clock_run t cs'
  end.

(** A conversation opened by [s] about a listing in the store: [s] first,
    the owner second, every message sent by [s]. *)
Definition opened_by (d : Data) (c : Conversation) (s : string) : Prop :=
  exists l, dict_get (item_id c) (listings d) = Some l
            /\ participants c = [s; owner l]
            /\ s <> owner l
            /\ Forall (fun msg => sender msg = s) (messages c).

(** Timestamps of a conversation in non-decreasing order, none after
    [t]. *)
Definition timed (t : pyfloat) (c : Conversation) : Prop :=
  StronglySorted Z.le (map timestamp (messages c))
  /\ Forall (fun x => (x <= t)%Z) (map timestamp (messages c)).

(** The file and the memory of a manager agree but for [item_info]. *)
Definition file_agrees (m : Manager) : Prop :=
  exists d, data_of_json (_load_data (file m)) = Some d
            /\ forget_item_info d = forget_item_info (data m).

(** * The user manager and the routes

    [user_manager.py] and the routes of [app.py] that use the two managers.
    [str.lower] and the SHA-256 digest of [hashlib] are parameters; the
    digest is that of the encoded password, for passwords that encode.
    Values taken from the body of a request are JSON values; a method of
    [str] called on another value raises [AttributeError].  The image route
    and [chatbot.py] talk to an outside service and are not modelled. *)

Inductive Exc := AttributeError.

Inductive Try (A : Type) :=
| Throws (e : Exc)
| Gives (a : A).

Arguments Throws {A} e.
Arguments Gives {A} a.

(** ** [user_manager.py] *)

Record UserManager := {
  users : dict string;
  users_file : File
}.

Definition users_to_json (u : dict string) : json := dict_to_json JStr u.

Definition users_of_json (j : json) : option (dict string) :=
  dict_of_json (fun v => as_str (Some v)) (Some j).

(** [_load_users], as the document the manager starts from; the
    [Corrupted] case is the [except json.JSONDecodeError] branch. *)
Definition _load_users (f : File) : json :=
  match f with
  | Some (Document j) => j
  | Some Corrupted => JObj []
  | None => JObj []
  end.

(** [_save_users] *)
Definition _save_users (m : UserManager) : UserManager :=
  {| users := users m;
     users_file := Some (Document (users_to_json (users m))) |}.

(** [UserManager()], typed; [None] when the file holds a document that is
    not an object of strings. *)
Definition UserManager__init__ (f : File) : option UserManager :=
  match users_of_json (_load_users f) with
  | Some u => Some {| users := u; users_file := f |}
  | None => None
  end.

Definition registration_empty := "Username and password cannot be empty.".
Definition registration_exists :=
  "Username already exists. Please choose another.".
Definition registration_done :=
  "Registration successful! You can now log in.".

(** Whether a value is a [str]. *)
Definition is_str (v : json) : bool :=
  match v with JStr _ => true | _ => false end.

(** Stand-ins for the two parameters, to run the code on examples: the
    lower case of ASCII letters, and a digest that only reverses. *)
Definition ascii_lower (c : ascii) : ascii :=
  let n := nat_of_ascii c in
  if (65 <=? n)%nat && (n <=? 90)%nat then ascii_of_nat (n + 32) else c.

Fixpoint lower_ascii (s : string) : string :=
  match s with
  | EmptyString => EmptyString
  | String c s' => String (ascii_lower c) (lower_ascii s')
  end.

Fixpoint reversed (s acc : string) : string :=
  match s with
  | EmptyString => acc
  | String c s' => reversed s' (String c acc)
  end.

Definition toy_digest (s : string) : string := reversed s "".

Section UserManagerCode.
Variable lower : string -> string.
Variable sha256_hexdigest : string -> string.

(** [_hash_password], on a [str]. *)
Definition _hash_password (password : string) : string :=
  sha256_hexdigest password.

Definition register_api (username password : json) (m : UserManager)
  : Try (Response unit * UserManager) :=
  if negb (truthy username) || negb (truthy password) then
    Gives (Failed registration_empty, m)
  else
    match username with
    | JStr u =>
        let username_lower := lower u in
        if dict_has username_lower (users m) then
          Gives (Failed registration_exists, m)
        else
          match password with
          | JStr p =>
              let m := {| users := dict_set username_lower (_hash_password p)
                                     (users m);
                          users_file := users_file m |} in
              let m := _save_users m in
              Gives (Ok (Some registration_done) tt, m)
          | _ => Throws AttributeError
          end
    | _ => Throws AttributeError
    end.

Definition login_api (username password : json) (m : UserManager)
  : Try (option string) :=
  if negb (truthy username) || negb (truthy password) then Gives None
  else
    match password with
    | JStr p =>
        let hashed_password := _hash_password p in
        match username with
        | JStr u =>
            let username_lower := lower u in
            match dict_get username_lower (users m) with
            | Some h =>
                if h =? hashed_password then Gives (Some username_lower)
                else Gives None
            | None => Gives None
            end
        | _ => Throws AttributeError
        end
    | _ => Throws AttributeError
    end.

(** The user manager after a call of [register_api]; a call that raises
    leaves it as it was. *)
Definition register (username password : json) (m : UserManager)
  : UserManager :=
  match register_api username password m with
  | Gives (_, m') => m'
  | Throws _ => m
  end.

(** The manager of a process started without a users file. *)
Definition no_users : UserManager := {| users := []; users_file := None |}.

Inductive registered : UserManager -> Prop :=
| registered_none : registered no_users
| registered_more username password m :
    registered m -> registered (register username password m).

(** ** [app.py] *)

Record App := {
  user_manager : UserManager;
  marketplace_manager : Manager
}.

(** The Flask session of a client, seen through its only key,
    ['username']. *)
Definition Session := option string.

Inductive Body :=
| Unauthorized401
| Result (r : Response unit)
| Created (r : Response Listing)
| MarketplaceData (username : string) (all_items : list Listing)
    (inbox_summary : list Summary).

Inductive Reply :=
| Redirect (endpoint : string)
| Page (template : string)
| Json (status : nat) (body : Body).

Definition route_index (session : Session) : Reply :=
  match session with
  | Some _ => Redirect "route_marketplace"
  | None => Page "index.html"
  end.

Definition route_marketplace (session : Session) : Reply :=
  match session with
  | None => Redirect "route_index"
  | Some _ => Page "marketplace.html"
  end.

Definition route_logout (session : Session) : Reply * Session :=
  (Redirect "route_index", None).

Definition api_register (data : dict json) (a : App) : Try (Reply * App) :=
  match register_api (py_get "username" data) (py_get "password" data)
          (user_manager a) with
  | Throws e => Throws e
  | Gives (result, um) =>
      Gives (Json 200 (Result result),
             {| user_manager := um;
                marketplace_manager := marketplace_manager a |})
  end.

(** [if username:] on what [login_api] returned. *)
Definition if_username (username : option string) : option string :=
  match username with
  | Some u => if u =? "" then None else Some u
  | None => None
  end.

Definition api_login (data : dict json) (session : Session) (a : App)
  : Try (Reply * Session) :=
  match login_api (py_get "username" data) (py_get "password" data)
          (user_manager a) with
  | Throws e => Throws e
  | Gives username =>
      match if_username username with
      | Some u =>
          Gives (Json 200 (Result (Ok (Some "Login successful!") tt)), Some u)
      | None =>
          Gives (Json 200 (Result (Failed "Invalid credentials.")), session)
      end
  end.

Definition api_get_marketplace_data (session : Session) (a : App)
  : Raises Reply :=
  match session with
  | None => Return (Json 401 Unauthorized401)
  | Some current_user =>
      let all_items := get_all_items_api (marketplace_manager a) in
      inbox_summary <- get_inbox_api current_user (marketplace_manager a) ;;
      Return (Json 200 (MarketplaceData current_user all_items inbox_summary))
  end.

Definition api_create_listing (data : dict json) (rnd : N)
  (session : Session) (a : App) : Reply * App :=
  match session with
  | None => (Json 401 Unauthorized401, a)
  | Some owner =>
      let (result, mm) :=
        create_listing_api data owner rnd (marketplace_manager a) in
      (Json 200 (Created result),
       {| user_manager := user_manager a; marketplace_manager := mm |})
  end.

(** ** Clients and requests *)

Inductive Request :=
| GetIndex
| GetMarketplace
| GetLogout
| PostRegister (data : dict json)
| PostLogin (data : dict json)
| GetMarketplaceData
| PostListing (data : dict json) (rnd : N).

(** The server and the session cookie each client holds; clients present
    the cookie the server last gave them. *)
Record World := {
  app : App;
  cookie : nat -> Session
}.

Definition set_cookie (client : nat) (s : Session) (w : World) : World :=
  {| app := app w;
     cookie := fun c => if Nat.eqb c client then s else cookie w c |}.

(** The state after a request; a view that raises changes nothing. *)
Definition serve (client : nat) (r : Request) (w : World) : World :=
  let session := cookie w client in
  match r with
  | GetIndex => w
  | GetMarketplace => w
  | GetLogout => set_cookie client (snd (route_logout session)) w
  | PostRegister data =>
      match api_register data (app w) with
      | Gives (_, a) => {| app := a; cookie := cookie w |}
      | Throws _ => w
      end
  | PostLogin data =>
      match api_login data session (app w) with
      | Gives (_, s) => set_cookie client s w
      | Throws _ => w
      end
  | GetMarketplaceData => w
  | PostListing data rnd =>
      {| app := snd (api_create_listing data rnd session (app w));
         cookie := cookie w |}
  end.

Definition start : World :=
  {| app := {| user_manager := {| users := []; users_file := None |};
               marketplace_manager := empty_store |};
     cookie := fun _ => None |}.

Inductive served : World -> Prop :=
| served_start : served start
| served_request client r w : served w -> served (serve client r w).

End UserManagerCode.

(** A first client registers as Alice, logs in and posts the lamp. *)
Definition alice_credentials : dict json :=
  [("username", JStr "Alice"); ("password", JStr "secret")].

Definition world1 : World :=
  serve lower_ascii toy_digest 0 (PostRegister alice_credentials) start.

Definition world2 : World :=
  serve lower_ascii toy_digest 0 (PostLogin alice_credentials) world1.

Definition world3 : World :=
  serve lower_ascii toy_digest 0 (PostListing lamp 7) world2.

(** * Properties *)

(** ** Dictionaries *)

Section DictFacts.
Context {V : Type}.
Implicit Types (d : dict V) (k : string) (v : V).

Lemma dict_get_set_eq k v d : dict_get k (dict_set k v d) = Some v.
Proof.
  induction d as [|[k' v'] d IH]; simpl.
  - now rewrite String.eqb_refl.
  - destruct (String.eqb_spec k k') as [E|E]; simpl.
    + subst. now rewrite String.eqb_refl.
    + apply String.eqb_neq in E. now rewrite E.
Qed.

Lemma dict_get_set_neq k k0 v d :
  k0 <> k -> dict_get k0 (dict_set k v d) = dict_get k0 d.
Proof.
  intros N. induction d as [|[k' v'] d IH]; simpl.
  - apply String.eqb_neq in N. now rewrite N.
  - destruct (String.eqb_spec k k') as [E|E]; simpl.
    + subst. apply String.eqb_neq in N. now rewrite N.
    + now rewrite IH.
Qed.

Lemma dict_get_adjust_eq f k d :
  dict_get k (dict_adjust f k d) = option_map f (dict_get k d).
Proof.
  induction d as [|[k' v'] d IH]; simpl; [reflexivity|].
  destruct (String.eqb_spec k k') as [E|E]; simpl.
  - subst. now rewrite String.eqb_refl.
  - apply String.eqb_neq in E. now rewrite E.
Qed.

Lemma dict_get_adjust_neq f k k0 d :
  k0 <> k -> dict_get k0 (dict_adjust f k d) = dict_get k0 d.
Proof.
  intros N. induction d as [|[k' v'] d IH]; simpl; [reflexivity|].
  destruct (String.eqb_spec k k') as [E|E]; simpl.
  - subst. apply String.eqb_neq in N. now rewrite N.
  - now rewrite IH.
Qed.

Lemma keys_adjust f k d : keys (dict_adjust f k d) = keys d.
Proof.
  induction d as [|[k' v'] d IH]; simpl; [reflexivity|].
  destruct (k =? k'); simpl; [reflexivity|]. f_equal. apply IH.
Qed.

Lemma length_adjust f k d :
  List.length (dict_adjust f k d) = List.length d.
Proof.
  induction d as [|[k' v'] d IH]; simpl; [reflexivity|].
  destruct (k =? k'); simpl; congruence.
Qed.

Lemma dict_get_In k v d : dict_get k d = Some v -> In (k, v) d.
Proof.
  induction d as [|[k' v'] d IH]; simpl; [discriminate|].
  destruct (String.eqb_spec k k') as [E|E]; intros H.
  - left. congruence.
  - right. auto.
Qed.

Lemma dict_get_None k d : dict_get k d = None <-> ~ In k (keys d).
Proof.
  induction d as [|[k' v'] d IH]; simpl; [tauto|].
  destruct (String.eqb_spec k k') as [E|E].
  - split; [discriminate|]. intros H. exfalso. apply H. left. congruence.
  - rewrite IH. split; intros H; [intros [F|F]; [congruence|tauto]|tauto].
Qed.

Lemma In_dict_get k v d : NoDup (keys d) -> In (k, v) d -> dict_get k d = Some v.
Proof.
  induction d as [|[k' v'] d IH]; simpl; [tauto|].
  intros ND [H|H].
  - inversion H; subst. now rewrite String.eqb_refl.
  - inversion ND as [|? ? NI ND']; subst.
    destruct (String.eqb_spec k k') as [E|E].
    + subst. exfalso. apply NI. change k' with (fst (k', v)).
      now apply in_map.
    + auto.
Qed.

(** [d[k] = v] keeps the order of the keys and adds a new key last. *)
Lemma dict_set_fresh k v d :
  dict_get k d = None -> dict_set k v d = d ++ [(k, v)].
Proof.
  induction d as [|[k' v'] d IH]; simpl; [reflexivity|].
  destruct (k =? k'); [discriminate|]. intros H. now rewrite IH.
Qed.

Lemma keys_set_present k v d :
  dict_get k d <> None -> keys (dict_set k v d) = keys d.
Proof.
  induction d as [|[k' v'] d IH]; simpl; [congruence|].
  destruct (k =? k'); simpl; [reflexivity|]. intros H. f_equal. auto.
Qed.

Lemma NoDup_keys_set k v d : NoDup (keys d) -> NoDup (keys (dict_set k v d)).
Proof.
  intros ND. destruct (dict_get k d) eqn:G.
  - rewrite keys_set_present; [assumption|congruence].
  - rewrite dict_set_fresh by assumption. unfold keys.
    rewrite map_app. simpl.
    apply NoDup_app; [assumption| |].
    + constructor; [simpl; tauto|constructor].
    + intros x Hx [<-|[]]. now apply dict_get_None in G.
Qed.

Lemma In_dict_set kv k v d :
  In kv (dict_set k v d) -> kv = (fst kv, v) /\ fst kv = k \/ In kv d.
Proof.
  induction d as [|[k' v'] d IH]; simpl.
  - intros [<-|[]]. left. auto.
  - destruct (String.eqb_spec k k') as [E|E]; simpl.
    + intros [<-|H]; [left; auto|right; auto].
    + intros [<-|H]; [right; auto|]. destruct (IH H); auto.
Qed.
End DictFacts.

(** ** Identifiers *)

Lemma hex_digits_cons k n c acc :
  exists c' s', hex_digits k n (String c acc) = String c' s'.
Proof.
  revert n c acc. induction k as [|k IH]; intros n c acc; simpl.
  - eauto.
  - apply IH.
Qed.

(** Every identifier the managers hand out is a non-empty string. *)
Lemma str_uuid_nonempty u : str_uuid u <> "".
Proof.
  assert (H : exists c s, hex_digits 32 u "" = String c s)
    by exact (hex_digits_cons 31 (N.div u 16) (hex_digit (N.modulo u 16)) "").
  destruct H as (c & s & E). unfold str_uuid. rewrite E.
  simpl. discriminate.
Qed.

(** ** Persistence *)

Lemma sequence_map_Some {A B} (f : A -> option B) (g : B -> A) l :
  (forall b, f (g b) = Some b) -> sequence (map f (map g l)) = Some l.
Proof.
  intros H. induction l as [|b l IH]; simpl; [reflexivity|].
  now rewrite H, IH.
Qed.

Lemma listing_of_to_json l : listing_of_json (listing_to_json l) = Some l.
Proof. now destruct l. Qed.

Lemma message_of_to_json m : message_of_json (message_to_json m) = Some m.
Proof. now destruct m. Qed.

Lemma convo_of_to_json c : convo_of_json (convo_to_json c) = Some c.
Proof.
  destruct c as [i it ps ms info]. unfold convo_to_json, convo_of_json.
  cbn [c_id item_id participants messages item_info].
  assert (I : item_info_of_json
                (dict_get "item_info"
                   ([("id", JStr i); ("item_id", JStr it);
                     ("participants", JArr (map JStr ps));
                     ("messages", JArr (map message_to_json ms))]
                    ++ item_info_to_json info)) = Some info).
  { destruct info as [[[]|]|]; reflexivity. }
  rewrite I. simpl.
  rewrite (sequence_map_Some
             (fun p => match p with JStr s => Some s | _ => None end) JStr ps)
    by reflexivity.
  rewrite (sequence_map_Some message_of_json message_to_json ms)
    by apply message_of_to_json.
  reflexivity.
Qed.

Lemma dict_of_to_json {V} (f : V -> json) (g : json -> option V) d :
  (forall v, g (f v) = Some v) ->
  dict_of_json g (Some (dict_to_json f d)) = Some d.
Proof.
  intros H. unfold dict_of_json, dict_to_json.
  induction d as [|[k v] d IH]; simpl; [reflexivity|].
  rewrite H. simpl in IH. now rewrite IH.
Qed.

Lemma data_of_to_json d : data_of_json (data_to_json d) = Some d.
Proof.
  destruct d as [ls cs]. unfold data_to_json, data_of_json.
  cbn [listings conversations].
  change (dict_get "listings" _)
    with (Some (dict_to_json listing_to_json ls)).
  change (dict_get "conversations" _)
    with (Some (dict_to_json convo_to_json cs)).
  rewrite (dict_of_to_json listing_to_json listing_of_json ls)
    by apply listing_of_to_json.
  rewrite (dict_of_to_json convo_to_json convo_of_json cs)
    by apply convo_of_to_json.
  reflexivity.
Qed.

(** C9.  Writing the store with [_save_data] and starting a new manager on
    the file that results gives back the same listings and conversations:
    same keys in the same order, same messages in the same order, same read
    flags.  It holds for every store, reachable or not. *)
Theorem C9_save_then_load_roundtrip (m : Manager) :
  __init__ (file (_save_data m)) = Some (_save_data m)
  /\ option_map data (__init__ (file (_save_data m))) = Some (data m)
  /\ data_of_json (_load_data (file (_save_data m))) = Some (data m).
Proof.
  assert (E : __init__ (file (_save_data m)) = Some (_save_data m)).
  { unfold __init__, _load_data, _save_data. cbn [file data].
    now rewrite data_of_to_json. }
  repeat split.
  - exact E.
  - now rewrite E.
  - unfold _load_data, _save_data. cbn [file data]. apply data_of_to_json.
Qed.

(** ** One conversation per item and pair of users *)

Lemma mem_In x l : mem x l = true <-> In x l.
Proof.
  unfold mem. rewrite existsb_exists. split.
  - intros (y & Hy & E). apply String.eqb_eq in E. now subst.
  - intros H. exists x. split; [assumption|apply String.eqb_refl].
Qed.

Lemma set_eqb_spec l1 l2 :
  set_eqb l1 l2 = true <-> (forall x, In x l1 <-> In x l2).
Proof.
  unfold set_eqb. rewrite andb_true_iff, !forallb_forall. split.
  - intros [H1 H2] x. split; intros H.
    + apply mem_In. auto.
    + apply mem_In. auto.
  - intros H. split; intros x Hx; apply mem_In; now apply H.
Qed.

Lemma is_thread_spec item a b c :
  is_thread item a b c = true <->
  item_id c = item /\ forall x, In x (participants c) <-> x = a \/ x = b.
Proof.
  unfold is_thread. rewrite andb_true_iff, String.eqb_eq, set_eqb_spec.
  simpl. split; intros [H1 H2]; split; try assumption; intros x.
  - rewrite H2. intuition congruence.
  - rewrite H2. intuition congruence.
Qed.

Lemma matches_spec item s r c :
  matches item s r c = true <->
  item_id c = item /\ In s (participants c) /\ In r (participants c).
Proof.
  unfold matches. rewrite !andb_true_iff, String.eqb_eq, !mem_In. tauto.
Qed.

Lemma is_thread_matches item a b c :
  is_thread item a b c = true -> matches item a b c = true.
Proof.
  rewrite is_thread_spec, matches_spec. intros [H1 H2].
  repeat split; [assumption| |]; apply H2; auto.
Qed.

(** On a two-element participant list the loop's test is set equality. *)
Lemma matches_is_thread item s r c :
  (exists a b, participants c = [a; b] /\ a <> b) -> s <> r ->
  matches item s r c = true -> is_thread item s r c = true.
Proof.
  intros (a & b & P & N) Nsr. rewrite is_thread_spec, matches_spec, P.
  simpl. intros (H1 & H2 & H3). split; [assumption|]. intros x.
  intuition congruence.
Qed.

Lemma find_convo_None item s r l :
  find_convo item s r l = None <->
  Forall (fun kc => matches item s r (snd kc) = false) l.
Proof.
  induction l as [|[cid c] l IH]; simpl.
  - split; auto.
  - fold (matches item s r c). destruct (matches item s r c) eqn:M.
    + split; [discriminate|]. intros H. inversion H; subst. simpl in *.
      congruence.
    + rewrite IH. split; intros H.
      * constructor; assumption.
      * now inversion H.
Qed.

Lemma find_convo_Some item s r l cid :
  find_convo item s r l = Some cid ->
  exists c, In (cid, c) l /\ matches item s r c = true.
Proof.
  induction l as [|[k c] l IH]; simpl; [discriminate|].
  fold (matches item s r c). destruct (matches item s r c) eqn:M.
  - intros H. inversion H; subst. exists c. auto.
  - intros H. destruct (IH H) as (c' & I & M'). exists c'. auto.
Qed.

(** A conversation that is there is found, and the one found is there. *)
Lemma if_convo_id_found item s r d cid :
  Forall convo_ok d -> find_convo item s r d = Some cid ->
  if_convo_id (Some cid) = Some cid.
Proof.
  intros OK F. destruct (find_convo_Some _ _ _ _ _ F) as (c & I & _).
  rewrite Forall_forall in OK. destruct (OK _ I) as (_ & NE & _).
  simpl in NE. unfold if_convo_id.
  apply String.eqb_neq in NE. now rewrite NE.
Qed.

Section Counting.
Variable p : Conversation -> bool.
Lemma count_adjust f k d :
  (forall c, p (f c) = p c) -> count p (dict_adjust f k d) = count p d.
Proof.
  intros H. unfold count, values.
  induction d as [|[k' c] d IH]; simpl; [reflexivity|].
  destruct (k =? k'); simpl.
  - rewrite H. now destruct (p c).
  - destruct (p c); simpl; now rewrite IH.
Qed.

Lemma count_set k c d :
  count p (dict_set k c d) <= count p d + (if p c then 1 else 0).
Proof.
  unfold count, values. induction d as [|[k' c'] d IH]; simpl.
  - destruct (p c); simpl; lia.
  - destruct (k =? k'); simpl.
    + destruct (p c), (p c'); simpl; lia.
    + destruct (p c'); simpl; lia.
Qed.

Lemma count_zero d :
  Forall (fun kc => p (snd kc) = false) d -> count p d = 0.
Proof.
  unfold count, values.
  induction 1 as [|[k c] d H _ IH]; simpl; [reflexivity|].
  simpl in H. now rewrite H.
Qed.

Lemma count_zero_inv d :
  count p d = 0 -> Forall (fun kc => p (snd kc) = false) d.
Proof.
  unfold count, values.
  induction d as [|[k c] d IH]; simpl; [constructor|].
  destruct (p c) eqn:E; simpl; [discriminate|].
  intros H. constructor; auto.
Qed.
End Counting.

(** ** The store invariant along runs *)

Lemma Forall_adjust {V} (P : string * V -> Prop) f k (d : dict V) :
  (forall k' v, P (k', v) -> P (k', f v)) ->
  Forall P d -> Forall P (dict_adjust f k d).
Proof.
  intros H. induction 1 as [|[k' v] d Hx Hd IH]; simpl; [constructor|].
  destruct (k =? k'); constructor; auto.
Qed.

Lemma Forall_set {V} (P : string * V -> Prop) k v (d : dict V) :
  P (k, v) -> Forall P d -> Forall P (dict_set k v d).
Proof.
  intros H. induction 1 as [|[k' v'] d Hx Hd IH]; simpl.
  - repeat constructor. assumption.
  - destruct (String.eqb_spec k k') as [E|E]; constructor; auto.
    now subst.
Qed.

Lemma store_inv_empty : store_inv default_data.
Proof.
  repeat split; simpl; try constructor.
  intros. unfold thread_count. simpl. lia.
Qed.

Lemma store_inv_listings ls ls' cs :
  store_inv {| listings := ls; conversations := cs |} ->
  store_inv {| listings := ls'; conversations := cs |}.
Proof. intros H. exact H. Qed.

(** Mutating one conversation without touching its id, item or
    participants, and without emptying its messages, keeps the invariant. *)
Lemma store_inv_adjust f k ls cs :
  (forall c, c_id (f c) = c_id c /\ item_id (f c) = item_id c
             /\ participants (f c) = participants c
             /\ (messages c <> [] -> messages (f c) <> [])) ->
  store_inv {| listings := ls; conversations := cs |} ->
  store_inv {| listings := ls; conversations := dict_adjust f k cs |}.
Proof.
  intros Hf (OK & ND & U). unfold store_inv. cbn [conversations] in *.
  split; [|split].
  - apply Forall_adjust; [|assumption].
    intros k' c (H1 & H2 & H3 & H4). destruct (Hf c) as (F1 & F2 & F3 & F4).
    unfold convo_ok. cbn [fst snd] in *. rewrite F1, F3. auto.
  - now rewrite keys_adjust.
  - intros item a b. unfold thread_count. cbn [conversations].
    fold (count (is_thread item a b) (dict_adjust f k cs)).
    rewrite count_adjust; [apply (U item a b)|].
    intros c. unfold is_thread. destruct (Hf c) as (_ & F2 & F3 & _).
    now rewrite F2, F3.
Qed.

(** Filing a new conversation when the search found none keeps the
    invariant, whether or not the new key was already in use. *)
Lemma store_inv_new k item s r msg ls cs :
  k <> "" -> s <> r ->
  find_convo item s r cs = None ->
  store_inv {| listings := ls; conversations := cs |} ->
  store_inv {| listings := ls;
               conversations := dict_set k (new_convo k item s r msg) cs |}.
Proof.
  intros NE Nsr F (OK & ND & U). unfold store_inv. cbn [conversations] in *.
  split; [|split].
  - apply Forall_set; [|assumption].
    unfold convo_ok, new_convo. cbn. repeat split; try assumption.
    + exists s, r. auto.
    + discriminate.
  - now apply NoDup_keys_set.
  - intros item' a b. unfold thread_count. cbn [conversations].
    fold (count (is_thread item' a b)
            (dict_set k (new_convo k item s r msg) cs)).
    pose proof (count_set (is_thread item' a b) k
                  (new_convo k item s r msg) cs) as C.
    destruct (is_thread item' a b (new_convo k item s r msg)) eqn:T.
    + assert (Z0 : count (is_thread item' a b) cs = 0); [|lia].
      apply count_zero. apply find_convo_None in F.
      rewrite Forall_forall in F |- *. intros kc I.
      specialize (F kc I).
      destruct (is_thread item' a b (snd kc)) eqn:T'; [|reflexivity].
      exfalso. apply is_thread_spec in T, T'. cbn in T.
      destruct T as [<- P], T' as [I' P'].
      assert (M : matches item s r (snd kc) = true); [|congruence].
      apply matches_spec. split; [assumption|].
      split; apply P'; apply P; simpl; auto.
    + pose proof (U item' a b) as U'. unfold thread_count in U'.
      cbn [conversations] in U'.
      fold (count (is_thread item' a b) cs) in U'. lia.
Qed.


Lemma send_message_api_ok item s content now rnd m l :
  dict_get item (listings (data m)) = Some l -> s <> owner l ->
  send_message_api item s content now rnd m =
  (Ok (Some "Message sent successfully.") tt,
   _save_data
     (set_conversations
        (sent item s (owner l)
           {| sender := s; content := content; timestamp := now;
              read := false |} rnd (conversations (data m))) m)).
Proof.
  intros G N. unfold send_message_api, sent. rewrite G.
  apply String.eqb_neq in N. rewrite N.
  now destruct (if_convo_id _).
Qed.

Lemma send_message_api_cases item s content now rnd m :
  (dict_get item (listings (data m)) = None /\
   send_message_api item s content now rnd m = (Failed ItemNotFound, m))
  \/ (exists l, dict_get item (listings (data m)) = Some l /\ s = owner l /\
      send_message_api item s content now rnd m = (Failed SelfMessage, m))
  \/ (exists l, dict_get item (listings (data m)) = Some l /\ s <> owner l).
Proof.
  unfold send_message_api.
  destruct (dict_get item (listings (data m))) as [l|]; [|left; auto].
  right. destruct (String.eqb_spec s (owner l)) as [E|E].
  - left. exists l. auto.
  - right. exists l. auto.
Qed.

Lemma store_inv_sent item s r msg rnd ls cs :
  s <> r ->
  store_inv {| listings := ls; conversations := cs |} ->
  store_inv {| listings := ls; conversations := sent item s r msg rnd cs |}.
Proof.
  intros N I. unfold sent.
  destruct (find_convo item s r cs) as [cid|] eqn:F.
  - rewrite (if_convo_id_found item s r cs cid); [|apply I|assumption].
    apply store_inv_adjust; [|assumption].
    intros c. cbn. repeat split. intros _ E.
    now apply app_eq_nil in E as [_ E].
  - cbn [if_convo_id]. apply store_inv_new; auto using str_uuid_nonempty.
Qed.

Lemma store_inv_run c m : store_inv (data m) -> store_inv (data (run c m)).
Proof.
  intros I. destruct m as [[ls cs] f]. destruct c; cbn [run].
  - unfold create_listing_api. destruct (negb _); [exact I|]. exact I.
  - destruct (send_message_api_cases item sender0 content0 now rnd
                {| data := {| listings := ls; conversations := cs |};
                   file := f |})
      as [[_ ->]|[(l & _ & _ & ->)|(l & G & N)]]; try exact I.
    rewrite (send_message_api_ok _ _ _ _ _ _ l G N). cbn.
    now apply store_inv_sent.
  - exact I.
  - unfold get_conversation_api. cbn [data conversations].
    destruct (dict_get cid cs) as [c|]; [|exact I].
    destruct (negb _); [exact I|]. cbn.
    apply store_inv_adjust; [intros; cbn; auto|].
    apply store_inv_adjust; [|exact I].
    intros c'; cbn. repeat split. intros H E. apply map_eq_nil in E. auto.
Qed.

Lemma reachable_inv m : reachable m -> store_inv (data m).
Proof.
  induction 1 as [|c m _ IH].
  - apply store_inv_empty.
  - now apply store_inv_run.
Qed.

(** C2.  In every store reachable from the empty one by calls of
    [create_listing_api], [send_message_api], [get_inbox_api] and
    [get_conversation_api], each item and unordered pair of users has at
    most one conversation, every conversation has exactly two distinct
    participants, and any further call keeps it so. *)
Theorem C2_at_most_one_conversation (m : Manager) :
  reachable m ->
  (forall item a b, thread_count item a b (data m) <= 1)
  /\ Forall (fun kc => exists a b, participants (snd kc) = [a; b] /\ a <> b)
       (conversations (data m))
  /\ (forall c item a b, thread_count item a b (data (run c m)) <= 1).
Proof.
  intros R. pose proof (reachable_inv m R) as (OK & _ & U).
  split; [exact U|split].
  - eapply Forall_impl; [|exact OK]. intros kc (_ & _ & P & _). exact P.
  - intros c. apply (reachable_inv (run c m)). now constructor.
Qed.

Lemma C2_witness :
  reachable store2 /\ thread_count lamp_id "bob" "alice" (data store2) <= 1.
Proof.
  assert (R : reachable store2) by (do 2 apply reachable_run; constructor).
  split; [exact R|].
  apply (C2_at_most_one_conversation store2 R).
Defined.

(** ** Failures *)

(** C5.  A call that reports a failure (one of the five error results)
    returns the manager it was given: neither the store in memory nor the
    file has changed.  In particular the owner of a listing who writes about
    that listing gets the self-message failure and nothing is created or
    written. *)
Theorem C5_failures_leave_store_and_file (c : Call) (m : Manager) (e : string) :
  failure c m = Some e ->
  run c m = m
  /\ data (run c m) = data m /\ file (run c m) = file m
  /\ In e [ValidationFailed; ItemNotFound; SelfMessage;
           ConversationNotFound; Unauthorized]
  /\ (forall item content now rnd l,
        dict_get item (listings (data m)) = Some l ->
        send_message_api item (owner l) content now rnd m
        = (Failed SelfMessage, m)).
Proof.
  intros F.
  assert (R : run c m = m /\
              In e [ValidationFailed; ItemNotFound; SelfMessage;
                    ConversationNotFound; Unauthorized]).
  { destruct c; cbn [failure run] in *.
    - unfold create_listing_api in *. destruct (negb _); cbn in *.
      + inversion F; split; [reflexivity|simpl; tauto].
      + discriminate.
    - unfold send_message_api in *.
      destruct (dict_get item _) as [l|]; cbn in *.
      + destruct (sender0 =? owner l); cbn in *.
        * inversion F; split; [reflexivity|simpl; tauto].
        * discriminate.
      + inversion F; split; [reflexivity|simpl; tauto].
    - discriminate.
    - unfold get_conversation_api in *.
      destruct (dict_get cid _) as [cv|]; cbn in *.
      + destruct (negb _); cbn in *.
        * inversion F; split; [reflexivity|simpl; tauto].
        * discriminate.
      + inversion F; split; [reflexivity|simpl; tauto]. }
  destruct R as [R I]. rewrite R. repeat split; try assumption.
  intros item content0 now rnd l G. unfold send_message_api.
  now rewrite G, String.eqb_refl.
Qed.

Lemma C5_witness :
  failure (SendMessage lamp_id "alice" "to myself" 101%Z 9) store2
  = Some SelfMessage
  /\ run (SendMessage lamp_id "alice" "to myself" 101%Z 9) store2 = store2.
Proof.
  assert (F : failure (SendMessage lamp_id "alice" "to myself" 101%Z 9) store2
              = Some SelfMessage) by (vm_compute; reflexivity).
  split; [exact F|].
  apply (C5_failures_leave_store_and_file _ store2 SelfMessage F).
Defined.

(** ** First message, later messages *)

Lemma count_pos (p : Conversation -> bool) k c d :
  dict_get k d = Some c -> p c = true -> 1 <= count p d.
Proof.
  unfold count, values. induction d as [|[k' c'] d IH]; simpl; [discriminate|].
  destruct (k =? k').
  - intros E Hp. inversion E; subst. rewrite Hp. simpl. lia.
  - intros E Hp. destruct (p c'); simpl; auto with arith.
Qed.

Lemma count_unique (p : Conversation -> bool) k1 c1 k2 c2 d :
  NoDup (keys d) -> count p d <= 1 ->
  In (k1, c1) d -> p c1 = true ->
  In (k2, c2) d -> p c2 = true -> k1 = k2.
Proof.
  unfold count, values. induction d as [|[k c] d IH]; simpl; [tauto|].
  intros ND C I1 P1 I2 P2. inversion ND as [|? ? NI ND']; subst.
  assert (Z : forall k' c', In (k', c') d -> p c' = true ->
                            1 <= List.length (filter p (map snd d))).
  { intros k' c' I P. apply (count_pos p k' c' d); [|assumption].
    now apply In_dict_get. }
  destruct I1 as [E1|I1], I2 as [E2|I2].
  - congruence.
  - inversion E1; subst. rewrite P1 in C. simpl in C.
    specialize (Z _ _ I2 P2). lia.
  - inversion E2; subst. rewrite P2 in C. simpl in C.
    specialize (Z _ _ I1 P1). lia.
  - apply IH; try assumption. destruct (p c); simpl in C; lia.
Qed.

(** No conversation of the thread: the search finds nothing. *)
Lemma find_convo_absent item s r d :
  store_inv d -> s <> r -> thread_count item s r d = 0 ->
  find_convo item s r (conversations d) = None.
Proof.
  intros (OK & _ & _) N Z. apply find_convo_None.
  apply count_zero_inv in Z. rewrite Forall_forall in *. intros kc I.
  specialize (Z kc I). specialize (OK kc I). destruct OK as (_ & _ & P & _).
  destruct (matches item s r (snd kc)) eqn:M; [|reflexivity].
  apply (matches_is_thread item s r (snd kc) P N) in M. congruence.
Qed.

(** A conversation of the thread stored under [k]: the search finds [k]. *)
Lemma find_convo_present item s r d k c :
  store_inv d -> s <> r ->
  dict_get k (conversations d) = Some c -> is_thread item s r c = true ->
  find_convo item s r (conversations d) = Some k.
Proof.
  intros I N G T. pose proof I as (OK & ND & U).
  destruct (find_convo item s r (conversations d)) as [k'|] eqn:F.
  - f_equal. destruct (find_convo_Some _ _ _ _ _ F) as (c' & I' & M).
    rewrite Forall_forall in OK. destruct (OK _ I') as (_ & _ & P & _).
    apply (matches_is_thread item s r c' P N) in M.
    apply (count_unique (is_thread item s r) k' c' k c (conversations d));
      auto using dict_get_In. apply U.
  - apply find_convo_None in F. rewrite Forall_forall in F.
    specialize (F _ (dict_get_In _ _ _ G)). simpl in F.
    apply is_thread_matches in T. congruence.
Qed.

(** C1, as the code has it.  For a stored listing [A] and a user [S] other
    than its owner with no conversation yet: the first message of [S]
    succeeds and leaves exactly one conversation for the item and the pair,
    filed under the identifier drawn; a further message of [S] about the
    item succeeds, is appended to that conversation and leaves the keys of
    the conversations as they were; a message of the owner about the item
    is refused as a self-message and changes nothing. *)
Theorem C1_first_message_creates_later_append
  (m : Manager) (A : Listing) (S content content' reply : string)
  (now now' now'' : pyfloat) (rnd rnd' rnd'' : N) :
  reachable m ->
  dict_get (l_id A) (listings (data m)) = Some A ->
  S <> owner A ->
  thread_count (l_id A) S (owner A) (data m) = 0 ->
  let k := str_uuid (uuid4 rnd) in
  let msg := {| sender := S; content := content; timestamp := now;
                read := false |} in
  let msg' := {| sender := S; content := content'; timestamp := now';
                 read := false |} in
  let r1 := send_message_api (l_id A) S content now rnd m in
  let r2 := send_message_api (l_id A) S content' now' rnd' (snd r1) in
  success (fst r1) = true
  /\ thread_count (l_id A) S (owner A) (data (snd r1)) = 1
  /\ dict_get k (conversations (data (snd r1)))
     = Some (new_convo k (l_id A) S (owner A) msg)
  /\ success (fst r2) = true
  /\ dict_get k (conversations (data (snd r2)))
     = Some (add_message msg' (new_convo k (l_id A) S (owner A) msg))
  /\ conversations (data (snd r2))
     = dict_adjust (add_message msg') k (conversations (data (snd r1)))
  /\ keys (conversations (data (snd r2)))
     = keys (conversations (data (snd r1)))
  /\ List.length (conversations (data (snd r2)))
     = List.length (conversations (data (snd r1)))
  /\ send_message_api (l_id A) (owner A) reply now'' rnd'' (snd r1)
     = (Failed SelfMessage, snd r1).
Proof.
  intros R G N Z k msg msg' r1 r2.
  pose proof (reachable_inv m R) as I.
  assert (E1 : r1 = (Ok (Some "Message sent successfully.") tt,
                     _save_data
                       (set_conversations
                          (dict_set k (new_convo k (l_id A) S (owner A) msg)
                             (conversations (data m))) m))).
  { unfold r1. rewrite (send_message_api_ok _ _ _ _ _ _ A G N).
    unfold sent. now rewrite (find_convo_absent _ _ _ _ I N Z). }
  assert (R1 : reachable (snd r1)).
  { unfold r1.
    apply (reachable_run (SendMessage (l_id A) S content now rnd) m R). }
  pose proof (reachable_inv _ R1) as I1.
  assert (G1 : dict_get (l_id A) (listings (data (snd r1))) = Some A)
    by (rewrite E1; exact G).
  assert (K : dict_get k (conversations (data (snd r1)))
              = Some (new_convo k (l_id A) S (owner A) msg))
    by (rewrite E1; cbn; apply dict_get_set_eq).
  assert (T : is_thread (l_id A) S (owner A)
                (new_convo k (l_id A) S (owner A) msg) = true).
  { apply is_thread_spec. cbn. split; [reflexivity|]. intros x.
    intuition congruence. }
  assert (E2 : r2 = (Ok (Some "Message sent successfully.") tt,
                     _save_data
                       (set_conversations
                          (dict_adjust (add_message msg') k
                             (conversations (data (snd r1)))) (snd r1)))).
  { unfold r2. rewrite (send_message_api_ok _ _ _ _ _ _ A G1 N).
    unfold sent.
    rewrite (find_convo_present _ _ _ _ k _ I1 N K T).
    assert (NE : if_convo_id (Some k) = Some k).
    { unfold if_convo_id. pose proof (str_uuid_nonempty (uuid4 rnd)) as NE.
      apply String.eqb_neq in NE. fold k in NE. now rewrite NE. }
    now rewrite NE. }
  split; [now rewrite E1|].
  split.
  { pose proof I1 as (_ & _ & U). specialize (U (l_id A) S (owner A)).
    pose proof (count_pos _ _ _ _ K T) as P. unfold thread_count in *.
    unfold count in P. lia. }
  split; [exact K|].
  split; [now rewrite E2|].
  split.
  { rewrite E2. cbn [snd data _save_data set_conversations conversations].
    rewrite dict_get_adjust_eq, K. reflexivity. }
  split; [now rewrite E2|].
  split; [rewrite E2; cbn [snd data _save_data set_conversations
                             conversations]; apply keys_adjust|].
  split; [rewrite E2; cbn [snd data _save_data set_conversations
                             conversations]; apply length_adjust|].
  unfold send_message_api. now rewrite G1, String.eqb_refl.
Qed.

Lemma C1_witness :
  (reachable store1
   /\ dict_get (l_id lamp_listing) (listings (data store1)) = Some lamp_listing
   /\ "bob" <> owner lamp_listing
   /\ thread_count (l_id lamp_listing) "bob" (owner lamp_listing) (data store1)
      = 0)
  /\ thread_count lamp_id "bob" "alice"
       (data (snd (send_message_api lamp_id "bob" "interested!" 100%Z 8
                     store1))) = 1.
Proof.
  assert (R : reachable store1) by (apply reachable_run; constructor).
  assert (G : dict_get (l_id lamp_listing) (listings (data store1))
              = Some lamp_listing) by reflexivity.
  assert (N : "bob" <> owner lamp_listing) by discriminate.
  assert (Z : thread_count (l_id lamp_listing) "bob" (owner lamp_listing)
                (data store1) = 0) by reflexivity.
  split; [repeat split; assumption|].
  exact (proj1 (proj2
    (C1_first_message_creates_later_append store1 lamp_listing "bob"
       "interested!" "still there?" "it is" 100%Z 101%Z 102%Z 8 9 10
       R G N Z))).
Defined.

(** C1 as stated fails: after bob's first message about alice's lamp, a
    message sent by alice, the owner, about the same item is not a success;
    it is refused and the conversation keeps its single message. *)
Lemma C1_counterexample :
  dict_get lamp_id (listings (data store1)) = Some lamp_listing
  /\ owner lamp_listing = "alice" /\ "bob" <> "alice"
  /\ success (fst (send_message_api lamp_id "bob" "interested!" 100%Z 8
                     store1)) = true
  /\ snd (send_message_api lamp_id "bob" "interested!" 100%Z 8 store1)
     = store2
  /\ success (fst (send_message_api lamp_id "alice" "it is" 101%Z 9 store2))
     = false
  /\ snd (send_message_api lamp_id "alice" "it is" 101%Z 9 store2) = store2
  /\ option_map (fun c => List.length (messages c))
       (dict_get thread_id (conversations (data store2))) = Some 1.
Proof.
  repeat split; try reflexivity. discriminate.
Qed.

(** ** Creating a listing *)

Lemma all_required item_data :
  all [py_get "name" item_data; py_get "description" item_data;
       py_get "price" item_data; py_get "category" item_data] = true
  <-> forall k, In k required_fields -> truthy (py_get k item_data) = true.
Proof.
  unfold all, required_fields. simpl. rewrite !andb_true_iff. split.
  - intros (H1 & H2 & H3 & H4 & _) k [<-|[<-|[<-|[<-|[]]]]]; assumption.
  - intros H. repeat split; apply H; auto.
Qed.

(** What [create_listing_api] does.  It fails with the validation
    error exactly when one of name, description, price, category
    is absent or has a false truth value (null, false, zero, empty string,
    array or object).  Otherwise it returns the listing built from the four
    values, the owner and the identifier drawn, stores it under that
    identifier and writes the file; when the identifier is not yet a key of
    the listings, the new listing comes last and every listing that was
    there is still there. *)
Lemma create_listing_api_behaviour
  (item_data : dict json) (user : string) (rnd : N) (m : Manager) :
  let r := create_listing_api item_data user rnd m in
  let l := listing_of item_data user rnd in
  (fst r = Failed ValidationFailed <->
   exists k, In k required_fields /\ truthy (py_get k item_data) = false)
  /\ ((forall k, In k required_fields -> truthy (py_get k item_data) = true) ->
      fst r = Ok (Some "Listing created successfully!") l
      /\ l_id l = str_uuid (uuid4 rnd) /\ owner l = user
      /\ dict_get (l_id l) (listings (data (snd r))) = Some l
      /\ conversations (data (snd r)) = conversations (data m)
      /\ file (snd r) = Some (Document (data_to_json (data (snd r))))
      /\ (dict_get (l_id l) (listings (data m)) = None ->
          listings (data (snd r)) = listings (data m) ++ [(l_id l, l)]
          /\ forall k' l', dict_get k' (listings (data m)) = Some l' ->
                           k' <> l_id l
                           /\ dict_get k' (listings (data (snd r)))
                              = Some l')).
Proof.
  intros r l. pose proof (all_required item_data) as AR.
  unfold r, create_listing_api.
  destruct (all _) eqn:E; cbn [negb fst snd].
  - assert (T : forall k, In k required_fields ->
                          truthy (py_get k item_data) = true)
      by now apply AR.
    split.
    + split; [discriminate|]. intros (k & I & F). rewrite (T k I) in F.
      discriminate.
    + intros _. fold (listing_of item_data user rnd). fold l.
      cbn [data _save_data set_listings listings conversations file].
      change (str_uuid (uuid4 rnd)) with (l_id l).
      split; [reflexivity|]. split; [reflexivity|]. split; [reflexivity|].
      split; [apply dict_get_set_eq|]. split; [reflexivity|].
      split; [reflexivity|]. intros G.
      split; [now apply dict_set_fresh|]. intros k' l' G'.
      assert (N : k' <> l_id l) by (intros ->; congruence).
      split; [exact N|]. now rewrite dict_get_set_neq.
  - split.
    + split; [|reflexivity]. intros _.
      assert (N : ~ forall k, In k required_fields ->
                              truthy (py_get k item_data) = true)
        by (rewrite <- AR; congruence).
      unfold required_fields in *.
      destruct (truthy (py_get "name" item_data)) eqn:T1;
        [|exists "name"; simpl; auto].
      destruct (truthy (py_get "description" item_data)) eqn:T2;
        [|exists "description"; simpl; auto].
      destruct (truthy (py_get "price" item_data)) eqn:T3;
        [|exists "price"; simpl; auto].
      destruct (truthy (py_get "category" item_data)) eqn:T4;
        [|exists "category"; simpl; auto 6].
      exfalso. apply N. intros k [<-|[<-|[<-|[<-|[]]]]]; assumption.
    + intros T. apply AR in T. congruence.
Qed.

Lemma create_listing_api_behaviour_witness :
  ((forall k, In k required_fields -> truthy (py_get k lamp) = true)
   /\ dict_get lamp_id (listings (data empty_store)) = None)
  /\ fst (create_listing_api lamp "alice" 7 empty_store)
     = Ok (Some "Listing created successfully!") lamp_listing
  /\ listings (data (snd (create_listing_api lamp "alice" 7 empty_store)))
     = [(lamp_id, lamp_listing)].
Proof.
  assert (T : forall k, In k required_fields -> truthy (py_get k lamp) = true).
  { intros k [<-|[<-|[<-|[<-|[]]]]]; reflexivity. }
  assert (G : dict_get lamp_id (listings (data empty_store)) = None)
    by reflexivity.
  split; [split; assumption|].
  destruct (proj2 (create_listing_api_behaviour lamp "alice" 7 empty_store) T)
    as (E & _ & _ & _ & _ & _ & F).
  split; [exact E|]. exact (proj1 (F G)).
Defined.

(** C8.  The code departs from the claim on a price of zero.  The lamp
    given away has its four fields present and non-empty, the price being
    the number 0; on every store, for every owner and identifier,
    [create_listing_api] refuses it with "All fields are required.",
    stores nothing and writes nothing, although every field is there.  The
    same request with 12 as its price is accepted. *)
Theorem C8_price_zero_is_refused (user : string) (rnd : N) (m : Manager) :
  forallb (fun k => negb (missing_or_empty k free_lamp)) required_fields = true
  /\ dict_get "price" free_lamp = Some (JInt 0)
  /\ create_listing_api free_lamp user rnd m = (Failed ValidationFailed, m)
  /\ ValidationFailed = "All fields are required."
  /\ fst (create_listing_api lamp user rnd m)
     = Ok (Some "Listing created successfully!") (listing_of lamp user rnd).
Proof. repeat split. Qed.

(** ** The inbox *)

Lemma count_unread_filter u msgs :
  count_unread u msgs
  = List.length
      (filter (fun msg => negb (read msg) && negb (sender msg =? u)) msgs).
Proof.
  induction msgs as [|msg msgs IH]; simpl; [reflexivity|].
  destruct (negb (read msg) && negb (sender msg =? u)); simpl; congruence.
Qed.

Lemma count_unread_read_all u msgs :
  count_unread u (map (mark_read u) msgs) = 0.
Proof.
  induction msgs as [|msg msgs IH]; simpl; [reflexivity|].
  unfold mark_read at 1 2. destruct (sender msg =? u) eqn:E; simpl.
  - rewrite E. rewrite andb_false_r. exact IH.
  - exact IH.
Qed.

Lemma next_other_ok u ps :
  (exists a b, ps = [a; b] /\ a <> b) -> exists p, next_other u ps = Return p.
Proof.
  intros (a & b & -> & N). unfold next_other. simpl.
  destruct (String.eqb_spec a u) as [E|E]; simpl; [|eauto].
  destruct (String.eqb_spec b u) as [E'|E']; simpl; [congruence|eauto].
Qed.

Lemma last_of_ok msgs : msgs <> [] -> exists msg, last_of msgs = Return msg.
Proof.
  intros N. unfold last_of. destruct (rev msgs) eqn:E; [|eauto].
  apply (f_equal (@rev Message)) in E. rewrite rev_involutive in E.
  simpl in E. contradiction.
Qed.

Lemma summarize_ok u ls cid c :
  convo_ok (cid, c) ->
  exists s, summarize u ls cid c = Return s
            /\ convo_id s = cid
            /\ unread_count s = count_unread u (messages c).
Proof.
  intros (_ & _ & P & M). cbn [fst snd] in *. unfold summarize.
  destruct (next_other_ok u _ P) as (p & ->).
  destruct (last_of_ok _ M) as (msg & ->). cbn. eauto.
Qed.

(** The loop returns, with one summary per conversation of the user, in
    dictionary order, behind what it was given. *)
Lemma inbox_loop_ok u ls items acc :
  Forall convo_ok items ->
  exists l,
    inbox_loop u ls items acc = Return (acc ++ l)
    /\ map convo_id l
       = keys (filter (fun kc => mem u (participants (snd kc))) items)
    /\ Forall (fun s => exists c,
                 In (convo_id s, c) items
                 /\ mem u (participants c) = true
                 /\ unread_count s = count_unread u (messages c)) l.
Proof.
  intros OK. revert acc.
  induction OK as [|[cid c] items H _ IH]; intros acc; simpl.
  - exists []. rewrite app_nil_r. auto.
  - destruct (mem u (participants c)) eqn:E; cbn [snd].
    + destruct (summarize_ok u ls cid c H) as (s & -> & I & C). cbn [bind].
      destruct (IH (acc ++ [s])) as (l & -> & K & F).
      exists (s :: l). rewrite <- app_assoc. split; [reflexivity|].
      split; [simpl; congruence|].
      constructor.
      * exists c. rewrite I. auto.
      * eapply Forall_impl; [|exact F]. intros s' (c' & ? & ? & ?).
        exists c'. auto.
    + destruct (IH acc) as (l & -> & K & F). exists l.
      split; [reflexivity|]. split; [assumption|].
      eapply Forall_impl; [|exact F]. intros s' (c' & ? & ? & ?).
      exists c'. auto.
Qed.

Lemma insert_desc_perm x l : Permutation (insert_desc x l) (x :: l).
Proof.
  induction l as [|y l IH]; simpl; [reflexivity|].
  destruct (sort_key x <? sort_key y)%Z; [|reflexivity].
  rewrite IH. apply perm_swap.
Qed.

Lemma sort_desc_perm l : Permutation (sort_desc l) l.
Proof.
  induction l as [|x l IH]; simpl; [reflexivity|].
  rewrite insert_desc_perm. now constructor.
Qed.

Lemma get_conversation_api_ok cid u m c :
  dict_get cid (conversations (data m)) = Some c ->
  mem u (participants c) = true ->
  let item := dict_get (item_id c) (listings (data m)) in
  let read := dict_adjust (read_all u) cid (conversations (data m)) in
  get_conversation_api cid u m
  = (Ok None (set_item_info item (read_all u c)),
     {| data := {| listings := listings (data m);
                   conversations := dict_adjust (set_item_info item) cid read |};
        file := Some (Document
                        (data_to_json
                           {| listings := listings (data m);
                              conversations := read |})) |}).
Proof.
  intros G M. unfold get_conversation_api. rewrite G, M. reflexivity.
Qed.

Lemma get_inbox_api_ok u m :
  store_inv (data m) ->
  exists inbox,
    get_inbox_api u m = Return inbox
    /\ Permutation (map convo_id inbox) (keys (conversations_of u (data m)))
    /\ forall s, In s inbox ->
         exists c, dict_get (convo_id s) (conversations (data m)) = Some c
                   /\ mem u (participants c) = true
                   /\ unread_count s = unread_for u c.
Proof.
  intros (OK & ND & _). unfold get_inbox_api.
  destruct (inbox_loop_ok u (listings (data m)) _ [] OK) as (l & -> & K & F).
  cbn. exists (sort_desc l). split; [reflexivity|]. split.
  - unfold conversations_of. rewrite <- K. apply Permutation_map.
    apply sort_desc_perm.
  - intros s I. apply (Permutation_in _ (sort_desc_perm l)) in I.
    rewrite Forall_forall in F. destruct (F s I) as (c & Ic & M & C).
    exists c. split; [now apply In_dict_get|]. split; [assumption|].
    unfold unread_for. now rewrite <- count_unread_filter.
Qed.

Lemma inbox_has_summary u m inbox k c :
  Permutation (map convo_id inbox) (keys (conversations_of u (data m))) ->
  dict_get k (conversations (data m)) = Some c ->
  In u (participants c) ->
  exists s, In s inbox /\ convo_id s = k.
Proof.
  intros P G I.
  assert (K : In k (keys (conversations_of u (data m)))).
  { unfold keys, conversations_of. change k with (fst (k, c)).
    apply in_map. apply filter_In. split; [now apply dict_get_In|].
    now apply mem_In. }
  apply (Permutation_in _ (Permutation_sym P)) in K.
  apply in_map_iff in K. destruct K as (s & E & Is). eauto.
Qed.

(** C3.  On a reachable store [get_inbox_api U] returns, without raising,
    one summary for each conversation [U] takes part in and none for any
    other; the [unread_count] of a summary is the number of messages of its
    conversation that are unread and not sent by [U].  For a conversation
    holding a single unread message of the other participant that number is
    1, and it is 0 in the inbox read right after [U] has called
    [get_conversation_api] on it. *)
Theorem C3_inbox_of_user (m : Manager) (U : string) :
  reachable m ->
  exists inbox,
    get_inbox_api U m = Return inbox
    /\ Permutation (map convo_id inbox) (keys (conversations_of U (data m)))
    /\ (forall s, In s inbox ->
          exists c, dict_get (convo_id s) (conversations (data m)) = Some c
                    /\ In U (participants c)
                    /\ unread_count s = unread_for U c)
    /\ (forall cid c msg,
          dict_get cid (conversations (data m)) = Some c ->
          In U (participants c) ->
          messages c = [msg] -> read msg = false -> sender msg <> U ->
          (exists s, In s inbox /\ convo_id s = cid)
          /\ (forall s, In s inbox -> convo_id s = cid -> unread_count s = 1)
          /\ exists inbox',
               get_inbox_api U (snd (get_conversation_api cid U m))
               = Return inbox'
               /\ (exists s, In s inbox' /\ convo_id s = cid)
               /\ (forall s, In s inbox' -> convo_id s = cid ->
                             unread_count s = 0)).
Proof.
  intros R. pose proof (reachable_inv m R) as I.
  destruct (get_inbox_api_ok U m I) as (inbox & E & P & S).
  exists inbox. split; [exact E|]. split; [exact P|]. split.
  { intros s Is. destruct (S s Is) as (c & G & M & C). exists c.
    rewrite mem_In in M. auto. }
  intros cid c msg G M One Unread Other.
  split; [now apply (inbox_has_summary U m inbox cid c)|]. split.
  { intros s Is <-. destruct (S s Is) as (c' & G' & _ & ->).
    assert (c' = c) by congruence. subst c'.
    unfold unread_for. rewrite One. simpl. rewrite Unread.
    apply String.eqb_neq in Other. now rewrite Other. }
  pose proof M as M'. apply mem_In in M'.
  pose proof (get_conversation_api_ok cid U m c G M') as A. cbv zeta in A.
  assert (R' : reachable (snd (get_conversation_api cid U m)))
    by apply (reachable_run (GetConversation cid U) m R).
  pose proof (reachable_inv _ R') as I'.
  destruct (get_inbox_api_ok U _ I') as (inbox' & E' & P' & S').
  assert (G' : dict_get cid
                 (conversations (data (snd (get_conversation_api cid U m))))
               = Some (set_item_info
                         (dict_get (item_id c) (listings (data m)))
                         (read_all U c))).
  { rewrite A. cbn [snd data conversations].
    now rewrite !dict_get_adjust_eq, G. }
  exists inbox'. split; [exact E'|]. split.
  - apply (inbox_has_summary U _ inbox' cid _ P' G'). exact M.
  - intros s Is <-. destruct (S' s Is) as (c' & Gc & _ & ->).
    rewrite G' in Gc. inversion Gc; subst c'.
    unfold unread_for. cbn [messages set_item_info read_all set_messages].
    rewrite <- count_unread_filter. apply count_unread_read_all.
Qed.

Lemma C3_witness :
  reachable store2
  /\ exists inbox inbox',
       get_inbox_api "alice" store2 = Return inbox
       /\ map unread_count inbox = [1]
       /\ get_inbox_api "alice" store3 = Return inbox'
       /\ map unread_count inbox' = [0].
Proof.
  assert (R : reachable store2) by (do 2 apply reachable_run; constructor).
  split; [exact R|].
  destruct (C3_inbox_of_user store2 "alice" R) as (inbox & E & _ & _ & F).
  assert (G : dict_get thread_id (conversations (data store2)) = Some thread)
    by reflexivity.
  assert (M : In "alice" (participants thread)) by (simpl; auto).
  assert (N : sender first_message <> "alice") by discriminate.
  destruct (F thread_id thread first_message G M eq_refl eq_refl N)
    as (_ & _ & inbox' & E' & _).
  exists inbox, inbox'.
  assert (E1 : get_inbox_api "alice" store2 = Return inbox) by exact E.
  assert (E2 : get_inbox_api "alice" store3 = Return inbox') by exact E'.
  split; [exact E1|]. split; [vm_compute in E1; now inversion E1|].
  split; [exact E2|]. vm_compute in E2. now inversion E2.
Defined.

(** ** Reading a conversation *)

Lemma dict_adjust_id {V} (f : V -> V) k (d : dict V) v :
  dict_get k d = Some v -> f v = v -> dict_adjust f k d = d.
Proof.
  induction d as [|[k' v'] d IH]; simpl; [reflexivity|].
  destruct (k =? k').
  - intros E F. inversion E; subst. now rewrite F.
  - intros E F. now rewrite IH.
Qed.

Lemma mark_read_idem u msg : mark_read u (mark_read u msg) = mark_read u msg.
Proof.
  unfold mark_read. destruct (sender msg =? u) eqn:E; simpl; rewrite E;
    reflexivity.
Qed.

Lemma read_all_idem u c : read_all u (read_all u c) = read_all u c.
Proof.
  unfold read_all, set_messages. cbn. f_equal. rewrite map_map.
  apply map_ext. intros msg. apply mark_read_idem.
Qed.

Lemma mark_read_spec u msg :
  sender (mark_read u msg) = sender msg
  /\ content (mark_read u msg) = content msg
  /\ timestamp (mark_read u msg) = timestamp msg
  /\ read (mark_read u msg) = (if sender msg =? u then read msg else true).
Proof. unfold mark_read. destruct (sender msg =? u); simpl; auto. Qed.

(** C4.  A successful [get_conversation_api cid U] returns and stores the
    conversation with [read] set on exactly the messages not sent by [U];
    messages of [U] keep their flag, and senders, contents and timestamps
    are untouched.  Calling it again at once returns the same conversation
    with the same messages, leaves the store as it was, and [U] has no
    unread message after either call. *)
Theorem C4_reading_marks_and_is_idempotent
  (m : Manager) (cid U : string) (c : Conversation) :
  dict_get cid (conversations (data m)) = Some c ->
  In U (participants c) ->
  let r1 := get_conversation_api cid U m in
  let r2 := get_conversation_api cid U (snd r1) in
  exists c1 c2,
    fst r1 = Ok None c1 /\ fst r2 = Ok None c2
    /\ dict_get cid (conversations (data (snd r1))) = Some c1
    /\ messages c1 = map (mark_read U) (messages c)
    /\ (forall i msg, nth_error (messages c) i = Some msg ->
          exists msg', nth_error (messages c1) i = Some msg'
                       /\ sender msg' = sender msg
                       /\ content msg' = content msg
                       /\ timestamp msg' = timestamp msg
                       /\ read msg'
                          = (if sender msg =? U then read msg else true))
    /\ c2 = c1 /\ messages c2 = messages c1
    /\ data (snd r2) = data (snd r1)
    /\ unread_for U c1 = 0 /\ unread_for U c2 = 0.
Proof.
  intros G M r1 r2. apply mem_In in M.
  pose proof (get_conversation_api_ok cid U m c G M) as E1. cbv zeta in E1.
  fold r1 in E1.
  set (item := dict_get (item_id c) (listings (data m))) in *.
  set (c1 := set_item_info item (read_all U c)).
  assert (G1 : dict_get cid (conversations (data (snd r1))) = Some c1).
  { rewrite E1. cbn [snd data conversations].
    now rewrite !dict_get_adjust_eq, G. }
  assert (M1 : mem U (participants c1) = true) by exact M.
  pose proof (get_conversation_api_ok cid U (snd r1) c1 G1 M1) as E2.
  cbv zeta in E2. fold r2 in E2.
  assert (L : listings (data (snd r1)) = listings (data m))
    by now rewrite E1.
  assert (It : dict_get (item_id c1) (listings (data (snd r1))) = item)
    by (rewrite L; reflexivity).
  rewrite It in E2.
  assert (F1 : read_all U c1 = c1).
  { unfold c1, set_item_info. cbn. unfold read_all, set_messages. cbn.
    f_equal. rewrite map_map. apply map_ext. intros msg.
    apply mark_read_idem. }
  assert (F2 : set_item_info item c1 = c1) by reflexivity.
  assert (U0 : unread_for U c1 = 0).
  { unfold unread_for. rewrite <- count_unread_filter.
    apply count_unread_read_all. }
  exists c1, c1. rewrite F1, F2 in E2.
  split; [now rewrite E1|]. split; [now rewrite E2|].
  split; [exact G1|]. split; [reflexivity|]. split.
  { intros i msg Hn. exists (mark_read U msg). split.
    - cbn. now apply map_nth_error.
    - apply mark_read_spec. }
  split; [reflexivity|]. split; [reflexivity|]. split; [|auto].
  rewrite E2. cbn [snd data].
  rewrite (dict_adjust_id (read_all U) cid _ c1 G1 F1).
  rewrite (dict_adjust_id (set_item_info item) cid _ c1 G1 F2).
  now destruct (data (snd r1)).
Qed.

Lemma C4_witness :
  (dict_get thread_id (conversations (data store2)) = Some thread
   /\ In "alice" (participants thread))
  /\ exists c1 c2,
       fst (get_conversation_api thread_id "alice" store2) = Ok None c1
       /\ fst (get_conversation_api thread_id "alice" store3) = Ok None c2
       /\ c2 = c1 /\ unread_for "alice" c1 = 0.
Proof.
  assert (G : dict_get thread_id (conversations (data store2)) = Some thread)
    by reflexivity.
  assert (M : In "alice" (participants thread)) by (simpl; auto).
  split; [split; assumption|].
  destruct (C4_reading_marks_and_is_idempotent store2 thread_id "alice"
              thread G M)
    as (c1 & c2 & E1 & E2 & _ & _ & _ & E & _ & _ & U1 & _).
  exists c1, c2. auto.
Defined.

(** ** The life of a conversation *)

Lemma run_send_message item s content now rnd m :
  run (SendMessage item s content now rnd) m = m
  \/ exists l, dict_get item (listings (data m)) = Some l /\ s <> owner l
     /\ run (SendMessage item s content now rnd) m
        = _save_data
            (set_conversations
               (sent item s (owner l)
                  {| sender := s; content := content; timestamp := now;
                     read := false |} rnd (conversations (data m))) m).
Proof.
  cbn [run].
  destruct (send_message_api_cases item s content now rnd m)
    as [[_ ->]|[(l & _ & _ & ->)|(l & G & N)]]; auto.
  right. exists l. rewrite (send_message_api_ok _ _ _ _ _ _ l G N). auto.
Qed.

Lemma run_get_conversation cid u m :
  run (GetConversation cid u) m = m
  \/ exists c, dict_get cid (conversations (data m)) = Some c
     /\ In u (participants c)
     /\ conversations (data (run (GetConversation cid u) m))
        = dict_adjust
            (set_item_info (dict_get (item_id c) (listings (data m)))) cid
            (dict_adjust (read_all u) cid (conversations (data m)))
     /\ listings (data (run (GetConversation cid u) m)) = listings (data m).
Proof.
  cbn [run]. unfold get_conversation_api.
  destruct (dict_get cid (conversations (data m))) as [c|] eqn:G; auto.
  destruct (mem u (participants c)) eqn:M; auto.
  right. exists c. apply mem_In in M. cbn. auto.
Qed.

(** Listings never change under messaging calls. *)
Lemma run_listings c m :
  (forall item_data user rnd, c <> CreateListing item_data user rnd) ->
  listings (data (run c m)) = listings (data m).
Proof.
  intros N. destruct c.
  - now elim (N item_data owner0 rnd).
  - destruct (run_send_message item sender0 content0 now rnd m)
      as [->|(l & _ & _ & ->)]; reflexivity.
  - reflexivity.
  - destruct (run_get_conversation cid username m)
      as [->|(c & _ & _ & _ & E)]; auto.
Qed.

(** Any call whose identifier is fresh takes a stored conversation through
    one step of [evolves]. *)
Lemma run_evolves call m cid c :
  draws_fresh_id call m ->
  dict_get cid (conversations (data m)) = Some c ->
  exists c', dict_get cid (conversations (data (run call m))) = Some c'
             /\ evolves call m cid c c'.
Proof.
  intros Fr G. destruct call as [i o r|item s ct now rnd|u|cid' u].
  - exists c. split; [|constructor]. cbn [run]. unfold create_listing_api.
    now destruct (negb _).
  - destruct (run_send_message item s ct now rnd m)
      as [->|(l & _ & _ & ->)]; [exists c; split; [assumption|constructor]|].
    cbn [data _save_data set_conversations conversations]. unfold sent.
    destruct (if_convo_id _) as [k|].
    + destruct (String.eqb_spec cid k) as [->|N].
      * eexists. split; [rewrite dict_get_adjust_eq, G; reflexivity|].
        apply evolves_message; [reflexivity|]. cbn. eauto.
      * exists c. split; [|constructor].
        now rewrite dict_get_adjust_neq.
    + exists c. split; [|constructor]. rewrite dict_get_set_neq; auto.
      intros ->. unfold draws_fresh_id in Fr. congruence.
  - exists c. split; [assumption|constructor].
  - destruct (run_get_conversation cid' u m)
      as [->|(c0 & G0 & M & -> & _)]; [exists c; split; auto; constructor|].
    destruct (String.eqb_spec cid cid') as [->|N].
    + rewrite !dict_get_adjust_eq, G. assert (c0 = c) by congruence. subst c0.
      eexists. split; [reflexivity|]. now apply evolves_read.
    + exists c. split; [|constructor].
      now rewrite !dict_get_adjust_neq.
Qed.

Lemma run_new_conversation call m cid c' :
  dict_get cid (conversations (data m)) = None ->
  dict_get cid (conversations (data (run call m))) = Some c' ->
  exists item s r content now,
    c' = new_convo cid item s r
           {| sender := s; content := content; timestamp := now;
              read := false |}.
Proof.
  intros G G'. destruct call as [i o r|item s ct now rnd|u|cid' u].
  - cbn [run] in G'. unfold create_listing_api in G'.
    destruct (negb _); cbn in G'; congruence.
  - destruct (run_send_message item s ct now rnd m)
      as [E|(l & _ & _ & E)]; rewrite E in G'; [congruence|].
    cbn [data _save_data set_conversations conversations] in G'.
    unfold sent in G'. destruct (if_convo_id _) as [k|].
    + destruct (String.eqb_spec cid k) as [->|N].
      * rewrite dict_get_adjust_eq, G in G'. discriminate.
      * rewrite dict_get_adjust_neq in G' by assumption. congruence.
    + destruct (String.eqb_spec cid (str_uuid (uuid4 rnd))) as [->|N].
      * rewrite dict_get_set_eq in G'. inversion G'. eauto 6.
      * rewrite dict_get_set_neq in G' by assumption. congruence.
  - cbn [run] in G'. congruence.
  - destruct (run_get_conversation cid' u m)
      as [E|(c0 & G0 & M & E & _)]; rewrite E in G'; [congruence|].
    destruct (String.eqb_spec cid cid') as [->|N].
    + rewrite !dict_get_adjust_eq, G in G'. discriminate.
    + rewrite !dict_get_adjust_neq in G' by assumption. congruence.
Qed.

(** What one step of [evolves] does to the message at position [i]. *)
Lemma evolves_message_at call m cid c c' i msg :
  evolves call m cid c c' ->
  nth_error (messages c) i = Some msg ->
  exists msg',
    nth_error (messages c') i = Some msg'
    /\ sender msg' = sender msg /\ content msg' = content msg
    /\ timestamp msg' = timestamp msg
    /\ (read msg = true -> msg' = msg)
    /\ (read msg = false -> read msg' = true ->
        exists u, call = GetConversation cid u /\ u <> sender msg
                  /\ In u (participants c)).
Proof.
  intros [|msg0 R0 _|u E M] Hn.
  - exists msg. repeat split; try assumption. congruence.
  - exists msg. cbn. split.
    + rewrite nth_error_app1; [assumption|].
      apply nth_error_Some. congruence.
    + repeat split. congruence.
  - exists (mark_read u msg). cbn. split; [now apply map_nth_error|].
    destruct (mark_read_spec u msg) as (S1 & S2 & S3 & S4).
    repeat split; try assumption.
    + intros Rd. unfold mark_read. destruct msg as [s ct t rd].
      cbn in *. subst rd. now destruct (s =? u).
    + intros Rd Rd'. exists u. repeat split; try assumption.
      intros ->. rewrite S4, String.eqb_refl in Rd'. congruence.
Qed.

(** Messages beyond the old ones were appended by this step, unread. *)
Lemma evolves_new_message call m cid c c' i msg' :
  evolves call m cid c c' ->
  List.length (messages c) <= i ->
  nth_error (messages c') i = Some msg' -> read msg' = false.
Proof.
  intros [|msg0 R0 _|u E M] L Hn.
  - apply nth_error_None in L. congruence.
  - cbn in Hn. rewrite nth_error_app2 in Hn by assumption.
    destruct (i - List.length (messages c)) as [|[|j]]; cbn in Hn;
      congruence.
  - cbn in Hn. rewrite <- (length_map (mark_read u)) in L.
    apply nth_error_None in L. congruence.
Qed.

(** A message that has been read stays as it is along any run. *)
Lemma read_stays_read cs : forall m cid c i msg,
  fresh_run cs m ->
  dict_get cid (conversations (data m)) = Some c ->
  nth_error (messages c) i = Some msg -> read msg = true ->
  exists c', dict_get cid (conversations (data (run_all cs m))) = Some c'
             /\ nth_error (messages c') i = Some msg.
Proof.
  induction cs as [|call cs IH]; intros m cid c i msg Fr G Hn Rd.
  - exists c. auto.
  - destruct Fr as [Fr Frs].
    destruct (run_evolves call m cid c Fr G) as (c1 & G1 & Ev).
    destruct (evolves_message_at _ _ _ _ _ i msg Ev Hn)
      as (msg1 & Hn1 & _ & _ & _ & Same & _).
    rewrite (Same Rd) in Hn1.
    apply (IH (run call m) cid c1 i msg Frs G1 Hn1 Rd).
Qed.

(** C6.  A message is unread when [send_message_api] creates it, whether it
    is appended or opens a conversation.  One call leaves every stored
    message in place with its sender, content and timestamp; its flag goes
    from unread to read only when the call is [get_conversation_api] on its
    conversation by a participant who is not its sender; a message that is
    read is found unchanged after any run of calls.  (Identifiers drawn by
    [uuid4] are taken not to collide with a conversation id in use.) *)
Theorem C6_read_flag_lifecycle (call : Call) (cs : list Call) (m : Manager) :
  fresh_run (call :: cs) m ->
  (forall cid c', dict_get cid (conversations (data m)) = None ->
     dict_get cid (conversations (data (run call m))) = Some c' ->
     Forall (fun msg => read msg = false) (messages c'))
  /\ (forall cid c, dict_get cid (conversations (data m)) = Some c ->
        exists c',
          dict_get cid (conversations (data (run call m))) = Some c'
          /\ (forall i msg', List.length (messages c) <= i ->
                nth_error (messages c') i = Some msg' -> read msg' = false)
          /\ (forall i msg, nth_error (messages c) i = Some msg ->
                exists msg',
                  nth_error (messages c') i = Some msg'
                  /\ sender msg' = sender msg /\ content msg' = content msg
                  /\ timestamp msg' = timestamp msg
                  /\ (read msg = true -> read msg' = true)
                  /\ (read msg = false -> read msg' = true ->
                      exists u, call = GetConversation cid u
                                /\ u <> sender msg
                                /\ In u (participants c))))
  /\ (forall cid c i msg,
        dict_get cid (conversations (data m)) = Some c ->
        nth_error (messages c) i = Some msg -> read msg = true ->
        exists c', dict_get cid
                     (conversations (data (run_all (call :: cs) m)))
                   = Some c'
                   /\ nth_error (messages c') i = Some msg).
Proof.
  intros Fr. split; [|split].
  - intros cid c' G G'.
    destruct (run_new_conversation call m cid c' G G')
      as (item & s & r & ct & now & ->).
    cbn. repeat constructor.
  - intros cid c G. destruct Fr as [Fr _].
    destruct (run_evolves call m cid c Fr G) as (c' & G' & Ev).
    exists c'. split; [exact G'|]. split.
    + intros i msg'. apply (evolves_new_message _ _ _ _ _ _ _ Ev).
    + intros i msg Hn.
      destruct (evolves_message_at _ _ _ _ _ i msg Ev Hn)
        as (msg' & Hn' & S1 & S2 & S3 & Same & Trig).
      exists msg'. repeat split; try assumption.
      intros Rd. now rewrite (Same Rd).
  - intros cid c i msg. now apply read_stays_read.
Qed.

Lemma C6_witness :
  fresh_run [GetConversation thread_id "alice";
             SendMessage lamp_id "bob" "still there?" 101%Z 9] store2
  /\ exists c', dict_get thread_id (conversations (data store3)) = Some c'
                /\ map read (messages c') = [true].
Proof.
  assert (Fr : fresh_run [GetConversation thread_id "alice";
                          SendMessage lamp_id "bob" "still there?" 101%Z 9]
                 store2) by (cbn; auto).
  split; [exact Fr|].
  destruct (C6_read_flag_lifecycle _ _ store2 Fr) as (_ & Step & _).
  destruct (Step thread_id thread eq_refl) as (c' & G & _).
  exists c'. split; [exact G|].
  assert (G' : dict_get thread_id (conversations (data store3)) = Some c')
    by exact G.
  vm_compute in G'. now inversion G'.
Defined.

(** ** What reading a conversation leaves in the store *)

Lemma dict_get_to_json {V} (f : V -> json) k (d : dict V) :
  dict_get k (map (fun kv => (fst kv, f (snd kv))) d)
  = option_map f (dict_get k d).
Proof.
  induction d as [|[k' v] d IH]; simpl; [reflexivity|].
  now destruct (k =? k').
Qed.

Lemma persisted_convo_save cid m :
  persisted_convo cid (file (_save_data m))
  = option_map convo_to_json (dict_get cid (conversations (data m))).
Proof.
  unfold persisted_convo, _save_data, data_to_json. cbn [file data].
  change (json_field "conversations" _)
    with (Some (dict_to_json convo_to_json (conversations (data m)))).
  unfold dict_to_json, json_field. apply dict_get_to_json.
Qed.

Lemma item_info_field c :
  json_field "item_info" (Some (convo_to_json c))
  = match item_info c with
    | None => None
    | Some None => Some JNull
    | Some (Some l) => Some (listing_to_json l)
    end.
Proof. destruct c as [i it ps ms [[l|]|]]; reflexivity. Qed.

Lemma evolves_item_info call m cid c c' :
  evolves call m cid c c' -> item_info c <> None -> item_info c' <> None.
Proof. intros [| |]; cbn; auto. discriminate. Qed.

Lemma item_info_stays cs : forall m cid c,
  fresh_run cs m ->
  dict_get cid (conversations (data m)) = Some c ->
  item_info c <> None ->
  exists c', dict_get cid (conversations (data (run_all cs m))) = Some c'
             /\ item_info c' <> None.
Proof.
  induction cs as [|call cs IH]; intros m cid c Fr G I.
  - exists c. auto.
  - destruct Fr as [Fr Frs].
    destruct (run_evolves call m cid c Fr G) as (c1 & G1 & Ev).
    apply (IH (run call m) cid c1 Frs G1).
    now apply (evolves_item_info call m cid c).
Qed.

(** C10.  A successful [get_conversation_api cid U] stores, in the
    conversation itself, the key [item_info] with the listing the item
    resolves to, or null.  The file written by that call was saved before
    the key was set and shows the conversation with its read flags and its
    former [item_info]; the next save, and the save after any later run of
    calls, writes the key.  Listings, the keys and the other conversations
    of the store, and the id, item, participants, and the senders, contents
    and timestamps of the messages of this conversation are unchanged. *)
Theorem C10_item_info_written_into_store
  (m : Manager) (cid U : string) (c : Conversation) (cs : list Call) :
  dict_get cid (conversations (data m)) = Some c ->
  In U (participants c) ->
  fresh_run cs (snd (get_conversation_api cid U m)) ->
  let r := get_conversation_api cid U m in
  let item := dict_get (item_id c) (listings (data m)) in
  exists c',
    fst r = Ok None c'
    /\ dict_get cid (conversations (data (snd r))) = Some c'
    /\ item_info c' = Some item
    /\ persisted_convo cid (file (snd r)) = Some (convo_to_json (read_all U c))
    /\ item_info (read_all U c) = item_info c
    /\ persisted_convo cid (file (_save_data (snd r)))
       = Some (convo_to_json c')
    /\ json_field "item_info" (Some (convo_to_json c'))
       = Some (match item with
               | Some l => listing_to_json l
               | None => JNull
               end)
    /\ json_field "item_info"
         (persisted_convo cid (file (_save_data (run_all cs (snd r)))))
       <> None
    /\ listings (data (snd r)) = listings (data m)
    /\ keys (conversations (data (snd r))) = keys (conversations (data m))
    /\ (forall k, k <> cid ->
          dict_get k (conversations (data (snd r)))
          = dict_get k (conversations (data m)))
    /\ c_id c' = c_id c /\ item_id c' = item_id c
    /\ participants c' = participants c
    /\ map sender (messages c') = map sender (messages c)
    /\ map content (messages c') = map content (messages c)
    /\ map timestamp (messages c') = map timestamp (messages c).
Proof.
  intros G M Fr r item. pose proof M as M'. apply mem_In in M'.
  pose proof (get_conversation_api_ok cid U m c G M') as E. cbv zeta in E.
  fold r in E. fold item in E.
  set (c' := set_item_info item (read_all U c)) in *.
  assert (G' : dict_get cid (conversations (data (snd r))) = Some c').
  { rewrite E. cbn [snd data conversations].
    now rewrite !dict_get_adjust_eq, G. }
  assert (Maps : forall (A : Type) (f : Message -> A),
             (forall msg, f (mark_read U msg) = f msg) ->
             map f (messages c') = map f (messages c)).
  { intros A f H. cbn. rewrite map_map. now apply map_ext. }
  exists c'. split; [now rewrite E|]. split; [exact G'|].
  split; [reflexivity|]. split.
  { rewrite E. cbn [snd file].
    change (Some (Document (data_to_json ?d)))
      with (file (_save_data {| data := d; file := None |})).
    rewrite persisted_convo_save. cbn [data conversations].
    now rewrite dict_get_adjust_eq, G. }
  split; [reflexivity|].
  split; [now rewrite persisted_convo_save, G'|].
  split; [rewrite item_info_field; cbn; now destruct item|].
  split.
  { destruct (item_info_stays cs (snd r) cid c' Fr G') as (c2 & G2 & I2);
      [discriminate|].
    rewrite persisted_convo_save, G2. cbn [option_map].
    rewrite item_info_field. now destruct (item_info c2) as [[l|]|]. }
  split; [now rewrite E|].
  split; [rewrite E; cbn [snd data conversations]; now rewrite !keys_adjust|].
  split.
  { intros k N. rewrite E. cbn [snd data conversations].
    now rewrite !dict_get_adjust_neq. }
  repeat split.
  - apply Maps. intros msg. apply mark_read_spec.
  - apply Maps. intros msg. apply mark_read_spec.
  - apply Maps. intros msg. apply mark_read_spec.
Qed.

Lemma C10_witness :
  (dict_get thread_id (conversations (data store2)) = Some thread
   /\ In "alice" (participants thread)
   /\ fresh_run [SendMessage lamp_id "bob" "still there?" 101%Z 9] store3)
  /\ exists c',
       dict_get thread_id (conversations (data store3)) = Some c'
       /\ item_info c' = Some (Some lamp_listing)
       /\ json_field "item_info" (persisted_convo thread_id (file store3))
          = None.
Proof.
  assert (G : dict_get thread_id (conversations (data store2)) = Some thread)
    by reflexivity.
  assert (M : In "alice" (participants thread)) by (simpl; auto).
  assert (Fr : fresh_run [SendMessage lamp_id "bob" "still there?" 101%Z 9]
                 store3) by (cbn; auto).
  split; [auto|].
  destruct (C10_item_info_written_into_store store2 thread_id "alice" thread
              [SendMessage lamp_id "bob" "still there?" 101%Z 9] G M Fr)
    as (c' & _ & G' & I & _).
  exists c'. split; [exact G'|]. split; [exact I|]. reflexivity.
Defined.

(** ** Order of the inbox *)

Lemma insert_desc_In x y l : In y (insert_desc x l) -> y = x \/ In y l.
Proof.
  intros H. apply (Permutation_in _ (insert_desc_perm x l)) in H.
  destruct H; auto.
Qed.

Lemma insert_desc_sorted x l :
  StronglySorted desc l -> StronglySorted desc (insert_desc x l).
Proof.
  induction 1 as [|y l S IH F]; simpl.
  - repeat constructor.
  - destruct (Z.ltb_spec (sort_key x) (sort_key y)) as [L|L].
    + constructor; [assumption|]. rewrite Forall_forall in *.
      intros z Hz. destruct (insert_desc_In _ _ _ Hz) as [->|Hz'].
      * unfold desc. lia.
      * auto.
    + constructor; [now constructor|]. constructor; [exact L|].
      rewrite Forall_forall in *. intros z Hz. specialize (F z Hz).
      unfold desc in *. lia.
Qed.

Lemma sort_desc_sorted l : StronglySorted desc (sort_desc l).
Proof.
  induction l as [|x l IH]; simpl; [constructor|].
  now apply insert_desc_sorted.
Qed.

Lemma sorted_nth l : StronglySorted desc l ->
  forall i j x y, i < j -> nth_error l i = Some x -> nth_error l j = Some y ->
                  desc x y.
Proof.
  induction 1 as [|a l S IH F]; intros i j x y L Hi Hj.
  - destruct i; discriminate.
  - destruct j as [|j]; [lia|]. destruct i as [|i]; cbn in Hi, Hj.
    + inversion Hi; subst. rewrite Forall_forall in F. apply F.
      eapply nth_error_In; eassumption.
    + apply (IH i j); auto with arith.
Qed.

Lemma insert_desc_stable t x l :
  at_time t (insert_desc x l) = at_time t (x :: l).
Proof.
  unfold at_time. induction l as [|y l IH]; [reflexivity|].
  cbn [insert_desc].
  destruct (Z.ltb_spec (sort_key x) (sort_key y)) as [L|L]; [|reflexivity].
  cbn [filter] in *.
  destruct (Z.eqb_spec (sort_key x) t) as [Ex|Ex],
           (Z.eqb_spec (sort_key y) t) as [Ey|Ey];
    try lia; rewrite IH; reflexivity.
Qed.

(** The sort is stable: summaries with the same timestamp stay in the
    order the loop produced them. *)
Lemma sort_desc_stable t l : at_time t (sort_desc l) = at_time t l.
Proof.
  induction l as [|x l IH]; [reflexivity|].
  cbn [sort_desc fold_right]. fold (sort_desc l).
  rewrite insert_desc_stable. unfold at_time in *. cbn [filter].
  now rewrite IH.
Qed.

Lemma summarize_id u ls cid c s :
  summarize u ls cid c = Return s -> convo_id s = cid.
Proof.
  unfold summarize. destruct (next_other _ _); cbn; [discriminate|].
  destruct (last_of _); cbn; [discriminate|].
  intros E. now inversion E.
Qed.

(** Whenever the loop returns, it has gone through the conversations of
    the user in dictionary order. *)
Lemma inbox_loop_keys u ls items : forall acc out,
  inbox_loop u ls items acc = Return out ->
  exists l, out = acc ++ l
            /\ map convo_id l
               = keys (filter (fun kc => mem u (participants (snd kc))) items).
Proof.
  induction items as [|[cid c] items IH]; intros acc out; cbn.
  - intros E. inversion E. exists []. now rewrite app_nil_r.
  - destruct (mem u (participants c)) eqn:M.
    + destruct (summarize u ls cid c) as [e|s] eqn:S; cbn; [discriminate|].
      intros E. destruct (IH _ _ E) as (l & -> & K).
      exists (s :: l). rewrite <- app_assoc. split; [reflexivity|].
      cbn. now rewrite (summarize_id _ _ _ _ _ S), K.
    + apply IH.
Qed.

Lemma next_other_spec u ps p :
  next_other u ps = Return p -> In p ps /\ p <> u.
Proof.
  unfold next_other. destruct (find _ ps) as [q|] eqn:F; [|discriminate].
  intros E. inversion E; subst q. apply find_some in F.
  destruct F as [I N]. split; [assumption|].
  intros ->. now rewrite String.eqb_refl in N.
Qed.

Lemma last_of_spec msgs msg :
  last_of msgs = Return msg -> exists earlier, msgs = earlier ++ [msg].
Proof.
  unfold last_of. destruct (rev msgs) as [|x r] eqn:E; [discriminate|].
  intros H. inversion H; subst x. exists (rev r).
  apply (f_equal (@rev Message)) in E. rewrite rev_involutive in E.
  exact E.
Qed.

Lemma summarize_spec u ls cid c s :
  summarize u ls cid c = Return s ->
  convo_id s = cid
  /\ item_name s = match dict_get (item_id c) ls with
                   | Some l => name l
                   | None => JStr "Deleted Item"
                   end
  /\ In (other_participant s) (participants c)
  /\ other_participant s <> u
  /\ exists earlier, messages c = earlier ++ [last_message s].
Proof.
  unfold summarize.
  destruct (next_other u (participants c)) as [e|p] eqn:N; cbn;
    [discriminate|].
  destruct (last_of (messages c)) as [e|msg] eqn:L; cbn; [discriminate|].
  intros E. inversion E; subst s. cbn.
  destruct (next_other_spec _ _ _ N). split; [reflexivity|].
  split; [reflexivity|]. split; [assumption|]. split; [assumption|].
  now apply last_of_spec.
Qed.

Lemma inbox_loop_summaries u ls items : forall acc out,
  inbox_loop u ls items acc = Return out ->
  exists l, out = acc ++ l
            /\ Forall (fun s => exists c,
                         In (convo_id s, c) items
                         /\ In u (participants c)
                         /\ summarize u ls (convo_id s) c = Return s) l.
Proof.
  induction items as [|[cid c] items IH]; intros acc out; cbn.
  - intros E. inversion E. exists []. now rewrite app_nil_r.
  - destruct (mem u (participants c)) eqn:M.
    + destruct (summarize u ls cid c) as [e|s] eqn:S; cbn; [discriminate|].
      intros E. destruct (IH _ _ E) as (l & -> & F).
      exists (s :: l). rewrite <- app_assoc. split; [reflexivity|].
      pose proof (summarize_id _ _ _ _ _ S) as I. constructor.
      * exists c. rewrite I. apply mem_In in M. auto.
      * eapply Forall_impl; [|exact F]. intros s' (c' & ? & ? & ?).
        exists c'. auto.
    + intros E. destruct (IH _ _ E) as (l & -> & F). exists l.
      split; [reflexivity|]. eapply Forall_impl; [|exact F].
      intros s' (c' & ? & ? & ?). exists c'. auto.
Qed.

(** C7.  The list returned by [get_inbox_api] is in decreasing order of the
    timestamp of each conversation's last message.  Every summary carries,
    as [last_message], the message appended last to its conversation; of
    two conversations of the user, the one whose last message is later
    stands first, and a summary with a later last message stands before
    one with an earlier one.  Summaries with equal timestamps keep the
    order in which the loop met their conversations, which is the order of
    the dictionary; the call does not change the manager, so calling again
    returns the same list. *)
Theorem C7_inbox_order (m : Manager) (U : string) (inbox : list Summary) :
  get_inbox_api U m = Return inbox ->
  (forall s, In s inbox ->
     exists c earlier,
       In (convo_id s, c) (conversations (data m))
       /\ In U (participants c)
       /\ messages c = earlier ++ [last_message s])
  /\ (NoDup (keys (conversations (data m))) ->
      forall i j k1 k2 c1 c2 e1 e2 last1 last2,
        nth_error (map convo_id inbox) i = Some k1 ->
        nth_error (map convo_id inbox) j = Some k2 ->
        dict_get k1 (conversations (data m)) = Some c1 ->
        dict_get k2 (conversations (data m)) = Some c2 ->
        messages c1 = e1 ++ [last1] -> messages c2 = e2 ++ [last2] ->
        (timestamp last1 < timestamp last2)%Z -> j < i)
  /\ (forall i j s1 s2,
     nth_error inbox i = Some s1 -> nth_error inbox j = Some s2 ->
     (timestamp (last_message s1) < timestamp (last_message s2))%Z -> j < i)
  /\ (exists arrival,
        inbox_loop U (listings (data m)) (conversations (data m)) []
        = Return arrival
        /\ map convo_id arrival = keys (conversations_of U (data m))
        /\ Permutation inbox arrival
        /\ forall t, at_time t inbox = at_time t arrival)
  /\ run (GetInbox U) m = m
  /\ get_inbox_api U (run (GetInbox U) m) = Return inbox.
Proof.
  unfold get_inbox_api.
  destruct (inbox_loop U _ _ []) as [e|arrival] eqn:L; cbn; [discriminate|].
  intros E. inversion E; subst inbox. clear E.
  assert (Link : forall s, In s (sort_desc arrival) ->
            exists c earlier,
              In (convo_id s, c) (conversations (data m))
              /\ In U (participants c)
              /\ messages c = earlier ++ [last_message s]).
  { intros s Is. apply (Permutation_in _ (sort_desc_perm arrival)) in Is.
    destruct (inbox_loop_summaries _ _ _ _ _ L) as (l & El & F).
    cbn in El. subst l. rewrite Forall_forall in F.
    destruct (F s Is) as (c & Ic & Mu & S).
    destruct (summarize_spec _ _ _ _ _ S) as (_ & _ & _ & _ & earlier & La).
    exists c, earlier. auto. }
  assert (Ord : forall i j s1 s2,
            nth_error (sort_desc arrival) i = Some s1 ->
            nth_error (sort_desc arrival) j = Some s2 ->
            (timestamp (last_message s1) < timestamp (last_message s2))%Z ->
            j < i).
  { intros i j s1 s2 H1 H2 Lt.
    destruct (Nat.lt_trichotomy i j) as [Lij|[->|Lij]]; [| |exact Lij].
    + pose proof (sorted_nth _ (sort_desc_sorted arrival) i j s1 s2 Lij H1 H2)
        as D. unfold desc, sort_key in D. lia.
    + rewrite H1 in H2. inversion H2; subst. lia. }
  split; [exact Link|]. split; [|split; [exact Ord|split]].
  - intros ND i j k1 k2 c1 c2 e1 e2 last1 last2 H1 H2 G1 G2 M1 M2 Lt.
    rewrite nth_error_map in H1, H2.
    destruct (nth_error (sort_desc arrival) i) as [s1|] eqn:N1;
      [|discriminate].
    destruct (nth_error (sort_desc arrival) j) as [s2|] eqn:N2;
      [|discriminate].
    cbn in H1, H2. injection H1 as <-. injection H2 as <-.
    assert (Last : forall s c e last,
              In s (sort_desc arrival) ->
              dict_get (convo_id s) (conversations (data m)) = Some c ->
              messages c = e ++ [last] -> last_message s = last).
    { intros s c e last Is G M.
      destruct (Link s Is) as (c' & e' & Ic & _ & M').
      apply (In_dict_get _ _ _ ND) in Ic.
      assert (c' = c) by congruence. subst c'. rewrite M in M'.
      now apply app_inj_tail in M' as [_ ->]. }
    apply (Ord i j s1 s2 N1 N2).
    rewrite (Last s1 c1 e1 last1 (nth_error_In _ _ N1) G1 M1).
    rewrite (Last s2 c2 e2 last2 (nth_error_In _ _ N2) G2 M2).
    exact Lt.
  - exists arrival. split; [reflexivity|].
    destruct (inbox_loop_keys _ _ _ _ _ L) as (l & -> & K).
    split; [exact K|]. split; [apply sort_desc_perm|].
    intros t. apply sort_desc_stable.
  - split; reflexivity.
Qed.

Lemma C7_witness :
  exists inbox,
    get_inbox_api "alice" store4 = Return inbox
    /\ map convo_id inbox
       = ["00000000-0000-4000-8000-000000000009"; thread_id]
    /\ map other_participant inbox = ["carol"; "bob"]
    /\ map (fun s => timestamp (last_message s)) inbox = [200%Z; 100%Z]
    /\ (forall s, In s inbox ->
          exists c earlier,
            In (convo_id s, c) (conversations (data store4))
            /\ In "alice" (participants c)
            /\ messages c = earlier ++ [last_message s])
    /\ (forall i j c1 c2 e1 e2 last1 last2,
          nth_error (map convo_id inbox) i = Some thread_id ->
          nth_error (map convo_id inbox) j
          = Some "00000000-0000-4000-8000-000000000009" ->
          dict_get thread_id (conversations (data store4)) = Some c1 ->
          dict_get "00000000-0000-4000-8000-000000000009"
            (conversations (data store4)) = Some c2 ->
          messages c1 = e1 ++ [last1] -> messages c2 = e2 ++ [last2] ->
          (timestamp last1 < timestamp last2)%Z -> j < i)
    /\ get_inbox_api "alice" (run (GetInbox "alice") store4) = Return inbox.
Proof.
  destruct (get_inbox_api "alice" store4) as [e|inbox] eqn:E;
    [vm_compute in E; discriminate|].
  exists inbox. split; [reflexivity|].
  assert (ND : NoDup (keys (conversations (data store4)))).
  { apply (reachable_inv store4). do 3 apply reachable_run. constructor. }
  destruct (C7_inbox_order store4 "alice" inbox E)
    as (Link & Conv & _ & _ & _ & R).
  split; [vm_compute in E; now inversion E|].
  split; [vm_compute in E; now inversion E|].
  split; [vm_compute in E; now inversion E|].
  split; [exact Link|]. split; [|exact R].
  intros i j. apply (Conv ND i j).
Defined.

(** * Further properties of the store *)

(** ** Starting and restarting *)

Lemma run_create_listing item_data user rnd m :
  run (CreateListing item_data user rnd) m = m
  \/ ((forall k, In k required_fields -> truthy (py_get k item_data) = true)
      /\ run (CreateListing item_data user rnd) m
         = _save_data
             (set_listings
                (dict_set (str_uuid (uuid4 rnd))
                   (listing_of item_data user rnd) (listings (data m))) m)).
Proof.
  cbn [run]. unfold create_listing_api.
  destruct (all _) eqn:E; cbn [negb snd]; [|now left].
  right. split; [now apply all_required|reflexivity].
Qed.

Lemma inbox_loop_nil u ls acc : inbox_loop u ls [] acc = Return acc.
Proof. reflexivity. Qed.

(** A manager started where there is no data file, or on a file whose
    text is not valid JSON, is empty: no items, an empty inbox for
    everybody, every message refused for want of an item, every
    conversation unknown, and the file left as it was.  Its first
    successful [create_listing_api] replaces whatever the file held by a
    store with that one listing, which is all a restart then finds. *)
Theorem start_without_usable_file (f : File) :
  f = None \/ f = Some Corrupted ->
  exists m,
    __init__ f = Some m
    /\ data m = default_data /\ file m = f
    /\ get_all_items_api m = []
    /\ (forall u, get_inbox_api u m = Return [])
    /\ (forall item s content now rnd,
          send_message_api item s content now rnd m = (Failed ItemNotFound, m))
    /\ (forall cid u,
          get_conversation_api cid u m = (Failed ConversationNotFound, m))
    /\ (forall item_data user rnd,
          success (fst (create_listing_api item_data user rnd m)) = true ->
          file (snd (create_listing_api item_data user rnd m))
          = Some (Document
                    (data_to_json
                       {| listings := [(str_uuid (uuid4 rnd),
                                        listing_of item_data user rnd)];
                          conversations := [] |}))
          /\ option_map data
               (__init__ (file (snd (create_listing_api item_data user rnd
                                       m))))
             = Some {| listings := [(str_uuid (uuid4 rnd),
                                     listing_of item_data user rnd)];
                       conversations := [] |}).
Proof.
  intros H. exists {| data := default_data; file := f |}.
  split; [destruct H as [->| ->]; reflexivity|].
  repeat split.
  - unfold create_listing_api in *.
    destruct (negb _); cbn in *; [discriminate|reflexivity].
  - unfold create_listing_api in *.
    destruct (negb _); cbn [fst snd success] in *; [discriminate|].
    unfold __init__, _load_data, _save_data. cbn [file data set_listings].
    now rewrite data_of_to_json.
Qed.

Lemma start_without_usable_file_witness :
  exists m, __init__ (Some Corrupted) = Some m
            /\ get_all_items_api m = []
            /\ option_map data
                 (__init__ (file (snd (create_listing_api lamp "alice" 7 m))))
               = Some {| listings := [(lamp_id, lamp_listing)];
                         conversations := [] |}.
Proof.
  destruct (start_without_usable_file (Some Corrupted) (or_intror eq_refl))
    as (m & E & D & F & A & _ & _ & _ & C).
  exists m. split; [exact E|]. split; [exact A|].
  assert (S : success (fst (create_listing_api lamp "alice" 7 m)) = true).
  { unfold create_listing_api. reflexivity. }
  exact (proj2 (C lamp "alice" 7%N S)).
Defined.

Lemma forget_adjust f k ls cs :
  (forall c, clear_item_info (f c) = clear_item_info c) ->
  forget_item_info {| listings := ls; conversations := dict_adjust f k cs |}
  = forget_item_info {| listings := ls; conversations := cs |}.
Proof.
  intros H. unfold forget_item_info. cbn [listings conversations]. f_equal.
  induction cs as [|[k' c] cs IH]; cbn; [reflexivity|].
  destruct (k =? k'); cbn; [now rewrite H|now rewrite IH].
Qed.

Lemma file_agrees_saved m : file_agrees (_save_data m).
Proof.
  exists (data m). split; [|reflexivity].
  unfold _load_data, _save_data. cbn [file]. apply data_of_to_json.
Qed.

Lemma file_agrees_run c m : file_agrees m -> file_agrees (run c m).
Proof.
  intros A. destruct c as [i o r|item s ct now rnd|u|cid u].
  - destruct (run_create_listing i o r m) as [->|[_ ->]];
      [assumption|apply file_agrees_saved].
  - destruct (run_send_message item s ct now rnd m) as [->|(l & _ & _ & ->)];
      [assumption|apply file_agrees_saved].
  - exact A.
  - cbn [run]. unfold get_conversation_api.
    destruct (dict_get cid (conversations (data m))) as [c|]; [|exact A].
    destruct (negb _); [exact A|]. cbn [snd].
    eexists. split.
    + cbn [file set_conversations _save_data _load_data].
      apply data_of_to_json.
    + cbn [data set_conversations _save_data listings conversations].
      symmetry. apply forget_adjust. reflexivity.
Qed.

(** Restarting at any moment loses nothing but [item_info] annotations:
    a manager started on the file of a reachable manager has the same
    listings and the same conversations, with their participants, messages
    and read flags, apart from [item_info] keys present on one side only. *)
Theorem restart_keeps_all_but_item_info (m : Manager) :
  reachable m ->
  exists m',
    __init__ (file m) = Some m'
    /\ file m' = file m
    /\ listings (data m') = listings (data m)
    /\ keys (conversations (data m')) = keys (conversations (data m))
    /\ forall k c, dict_get k (conversations (data m)) = Some c ->
         exists c', dict_get k (conversations (data m')) = Some c'
                    /\ c_id c' = c_id c /\ item_id c' = item_id c
                    /\ participants c' = participants c
                    /\ messages c' = messages c.
Proof.
  intros R.
  assert (A : file_agrees m).
  { induction R as [|c m _ IH]; [|now apply file_agrees_run].
    exists default_data. split; reflexivity. }
  destruct A as (d & L & F). exists {| data := d; file := file m |}.
  split; [unfold __init__; now rewrite L|]. split; [reflexivity|].
  cbn [data]. unfold forget_item_info in F. injection F as FL FC.
  split; [exact FL|].
  assert (G : forall cs cs' : dict Conversation,
             map (fun kc => (fst kc, clear_item_info (snd kc))) cs
             = map (fun kc => (fst kc, clear_item_info (snd kc))) cs' ->
             keys cs = keys cs'
             /\ forall k c, dict_get k cs' = Some c ->
                  exists c', dict_get k cs = Some c'
                             /\ clear_item_info c' = clear_item_info c).
  { induction cs as [|[k1 c1] cs IH]; intros [|[k2 c2] cs'] E;
      try discriminate.
    - split; [reflexivity|]. discriminate.
    - cbn [map fst snd] in E.
      remember (clear_item_info c1) as x1 eqn:X1.
      remember (clear_item_info c2) as x2 eqn:X2.
      injection E as Ek Ec Er. subst k2 x1 x2.
      destruct (IH cs' Er) as (K & D).
      split; [unfold keys in *; cbn; now rewrite K|].
      intros k c. cbn. destruct (k =? k1).
      + intros H. injection H as <-. eauto.
      + apply D. }
  destruct (G _ _ FC) as (K & D). split; [exact K|].
  intros k c H. destruct (D k c H) as (c' & H' & E). exists c'.
  split; [exact H'|]. unfold clear_item_info in E. now inversion E.
Qed.

Lemma restart_keeps_all_but_item_info_witness :
  reachable store3
  /\ exists m', __init__ (file store3) = Some m'
                /\ listings (data m') = listings (data store3).
Proof.
  assert (R : reachable store3) by (do 3 apply reachable_run; constructor).
  split; [exact R|].
  destruct (restart_keeps_all_but_item_info store3 R) as (m' & E & _ & L & _).
  exists m'. auto.
Defined.

(** ** Outcomes of the messaging calls *)

Ltac outcome :=
  repeat match goal with
    | |- _ /\ _ => split
    | |- _ <-> _ => split; intros
    | H : exists _, _ |- _ => destruct H
    | H : _ /\ _ |- _ => destruct H
    end;
  try discriminate; try congruence; eauto.

(** [send_message_api] reports "Item not found." exactly when the item is
    not a listing id, "You cannot message yourself." exactly when the
    sender owns the listing, and succeeds in all other cases. *)
Theorem send_message_api_outcome
  (item s content : string) (now : pyfloat) (rnd : N) (m : Manager) :
  let r := fst (send_message_api item s content now rnd m) in
  (r = Failed ItemNotFound <-> dict_get item (listings (data m)) = None)
  /\ (r = Failed SelfMessage <->
      exists l, dict_get item (listings (data m)) = Some l /\ s = owner l)
  /\ (r = Ok (Some "Message sent successfully.") tt <->
      exists l, dict_get item (listings (data m)) = Some l /\ s <> owner l)
  /\ (success r = true <->
      exists l, dict_get item (listings (data m)) = Some l /\ s <> owner l).
Proof.
  cbv zeta. unfold ItemNotFound, SelfMessage.
  destruct (send_message_api_cases item s content now rnd m)
    as [[G E]|[(l & G & E & R)|(l & G & N)]].
  - rewrite E. cbn [fst success]. outcome.
  - rewrite R. cbn [fst success]. outcome.
  - rewrite (send_message_api_ok _ _ _ _ _ _ l G N). cbn [fst success].
    outcome.
Qed.

(** A successful [send_message_api] leaves the listings alone, writes the
    file it then holds, and touches one conversation only: the one about
    the item between the sender and the owner, whose last message is the
    new one, unread. *)
Theorem send_message_api_effect
  (item s content : string) (now : pyfloat) (rnd : N) (m : Manager)
  (l : Listing) :
  NoDup (keys (conversations (data m))) ->
  dict_get item (listings (data m)) = Some l -> s <> owner l ->
  let m' := snd (send_message_api item s content now rnd m) in
  let msg := {| sender := s; content := content; timestamp := now;
                read := false |} in
  listings (data m') = listings (data m)
  /\ file m' = Some (Document (data_to_json (data m')))
  /\ exists cid c',
       dict_get cid (conversations (data m')) = Some c'
       /\ item_id c' = item
       /\ In s (participants c') /\ In (owner l) (participants c')
       /\ (exists earlier, messages c' = earlier ++ [msg])
       /\ forall k, k <> cid ->
            dict_get k (conversations (data m'))
            = dict_get k (conversations (data m)).
Proof.
  intros ND G N m' msg. unfold m'.
  rewrite (send_message_api_ok _ _ _ _ _ _ l G N). fold msg.
  cbn [snd data _save_data set_conversations listings conversations file].
  split; [reflexivity|]. split; [reflexivity|]. unfold sent.
  destruct (find_convo item s (owner l) (conversations (data m)))
    as [cid|] eqn:F.
  - destruct (find_convo_Some _ _ _ _ _ F) as (c & I & M).
    apply matches_spec in M. destruct M as (M1 & M2 & M3).
    pose proof (In_dict_get _ _ _ ND I) as Gc.
    destruct (if_convo_id (Some cid)) as [k|] eqn:T.
    + assert (k = cid).
      { unfold if_convo_id in T. destruct (cid =? ""); congruence. }
      subst k. exists cid, (add_message msg c).
      split; [now rewrite dict_get_adjust_eq, Gc|].
      repeat split; try assumption.
      * exists (messages c). reflexivity.
      * intros k N'. now apply dict_get_adjust_neq.
    + eexists. eexists. split; [apply dict_get_set_eq|].
      cbn. repeat split; auto.
      * now exists [].
      * intros k N'. now apply dict_get_set_neq.
  - cbn [if_convo_id]. eexists. eexists. split; [apply dict_get_set_eq|].
    cbn. repeat split; auto.
    + now exists [].
    + intros k N'. now apply dict_get_set_neq.
Qed.

Lemma send_message_api_effect_witness :
  listings (data store2) = listings (data store1)
  /\ file store2 = Some (Document (data_to_json (data store2))).
Proof.
  assert (ND : NoDup (keys (conversations (data store1)))) by constructor.
  assert (G : dict_get lamp_id (listings (data store1)) = Some lamp_listing)
    by reflexivity.
  assert (N : "bob" <> owner lamp_listing) by discriminate.
  destruct (send_message_api_effect lamp_id "bob" "interested!" 100%Z 8
              store1 lamp_listing ND G N) as (L & F & _).
  split; [exact L|exact F].
Defined.

(** [get_conversation_api] reports "Conversation not found." exactly when
    the id is not a key of the conversations, "Unauthorized access."
    exactly when it is and the user is not a participant, and succeeds
    exactly for a participant. *)
Theorem get_conversation_api_outcome (cid u : string) (m : Manager) :
  let r := fst (get_conversation_api cid u m) in
  (r = Failed ConversationNotFound <->
   dict_get cid (conversations (data m)) = None)
  /\ (r = Failed Unauthorized <->
      exists c, dict_get cid (conversations (data m)) = Some c
                /\ ~ In u (participants c))
  /\ (success r = true <->
      exists c, dict_get cid (conversations (data m)) = Some c
                /\ In u (participants c)).
Proof.
  cbv zeta. unfold get_conversation_api, ConversationNotFound, Unauthorized.
  destruct (dict_get cid (conversations (data m))) as [c|] eqn:G.
  - destruct (mem u (participants c)) eqn:M; cbn [negb fst success].
    + apply mem_In in M. outcome;
        try (match goal with H : Some _ = Some _ |- _ => injection H as <- end;
             contradiction).
    + assert (N : ~ In u (participants c))
        by (rewrite <- mem_In; congruence).
      outcome;
        try (match goal with H : Some _ = Some _ |- _ => injection H as <- end;
             contradiction).
  - cbn [fst success]. outcome.
Qed.

Lemma send_message_api_outcome_witness :
  fst (send_message_api "no-such-item" "bob" "hello" 100%Z 8 store1)
  = Failed ItemNotFound
  /\ fst (send_message_api lamp_id "alice" "hello" 100%Z 8 store1)
     = Failed SelfMessage.
Proof.
  destruct (send_message_api_outcome "no-such-item" "bob" "hello" 100%Z 8
              store1) as ((_ & A) & _).
  destruct (send_message_api_outcome lamp_id "alice" "hello" 100%Z 8 store1)
    as (_ & (_ & B) & _).
  split; [apply A; reflexivity|].
  apply B. exists lamp_listing. split; reflexivity.
Defined.

Lemma get_conversation_api_outcome_witness :
  fst (get_conversation_api thread_id "carol" store2) = Failed Unauthorized
  /\ fst (get_conversation_api lamp_id "alice" store2)
     = Failed ConversationNotFound.
Proof.
  destruct (get_conversation_api_outcome thread_id "carol" store2)
    as (_ & (_ & A) & _).
  destruct (get_conversation_api_outcome lamp_id "alice" store2)
    as ((_ & B) & _).
  split; [|apply B; reflexivity].
  apply A. exists thread. split; [reflexivity|].
  cbn. intros [H|[H|[]]]; discriminate.
Defined.

(** ** Listings in reachable stores *)

Lemma dict_get_set_keeps {V} k k0 (v : V) d :
  dict_get k0 d <> None -> dict_get k0 (dict_set k v d) <> None.
Proof.
  intros H. destruct (String.eqb_spec k0 k) as [->|N].
  - rewrite dict_get_set_eq. discriminate.
  - now rewrite dict_get_set_neq.
Qed.

Lemma listings_ok_run c m :
  Forall listing_ok (listings (data m)) /\ NoDup (keys (listings (data m))) ->
  Forall listing_ok (listings (data (run c m)))
  /\ NoDup (keys (listings (data (run c m)))).
Proof.
  intros [OK ND]. destruct c as [i o r|item s ct now rnd|u|cid u].
  - destruct (run_create_listing i o r m) as [->|[T ->]]; [auto|].
    cbn [data _save_data set_listings listings]. split.
    + apply Forall_set; [|assumption]. unfold listing_ok, listing_of.
      cbn [fst snd l_id name description price category].
      split; [reflexivity|]. split; [apply str_uuid_nonempty|].
      unfold required_fields in T. repeat split; apply T; simpl; auto.
    + now apply NoDup_keys_set.
  - rewrite run_listings; [auto|discriminate].
  - auto.
  - rewrite run_listings; [auto|discriminate].
Qed.

Lemma keys_l_id (d : dict Listing) :
  Forall listing_ok d -> map l_id (values d) = keys d.
Proof.
  unfold values, keys. induction 1 as [|[k l] d H _ IH]; [reflexivity|].
  cbn. destruct H as (E & _). cbn in E. now rewrite E, IH.
Qed.

(** In a reachable store every listing is filed under its own non-empty
    id with name, description, price and category true in Python's sense;
    [get_all_items_api] never returns two listings with the same id, and
    each listing it returns is the one its id resolves to. *)
Theorem stored_listings_well_formed (m : Manager) :
  reachable m ->
  NoDup (map l_id (get_all_items_api m))
  /\ forall l, In l (get_all_items_api m) ->
       dict_get (l_id l) (listings (data m)) = Some l
       /\ l_id l <> ""
       /\ truthy (name l) = true /\ truthy (description l) = true
       /\ truthy (price l) = true /\ truthy (category l) = true.
Proof.
  intros R.
  assert (I : Forall listing_ok (listings (data m))
              /\ NoDup (keys (listings (data m)))).
  { induction R as [|c m _ IH]; [|now apply listings_ok_run].
    split; constructor. }
  destruct I as [OK ND]. unfold get_all_items_api. split.
  - now rewrite keys_l_id.
  - intros l Hl. unfold values in Hl. apply in_map_iff in Hl.
    destruct Hl as ([k l'] & E & Hl). cbn in E. subst l'.
    rewrite Forall_forall in OK. destruct (OK _ Hl) as (E & NE & T).
    cbn [fst snd] in *. subst k. split; [now apply In_dict_get|].
    split; [assumption|exact T].
Qed.

Lemma stored_listings_well_formed_witness :
  reachable store4 /\ NoDup (map l_id (get_all_items_api store4)).
Proof.
  assert (R : reachable store4) by (do 3 apply reachable_run; constructor).
  split; [exact R|]. apply (stored_listings_well_formed store4 R).
Defined.

(** A call changes what [get_all_items_api] returns only when it is a
    [create_listing_api] with its four fields true, which, the identifier
    being new, puts the listing it built at the end. *)
Theorem get_all_items_api_after (call : Call) (m : Manager) :
  draws_fresh_listing_id call m ->
  get_all_items_api (run call m)
  = match call with
    | CreateListing item_data user rnd =>
        if all [py_get "name" item_data; py_get "description" item_data;
                py_get "price" item_data; py_get "category" item_data]
        then get_all_items_api m ++ [listing_of item_data user rnd]
        else get_all_items_api m
    | _ => get_all_items_api m
    end.
Proof.
  intros Fr. unfold get_all_items_api.
  destruct call as [i o r|item s ct now rnd|u|cid u].
  - cbn [run]. unfold create_listing_api.
    destruct (all _); cbn [negb snd]; [|reflexivity].
    cbn [data _save_data set_listings listings].
    fold (listing_of i o r). cbn in Fr.
    rewrite dict_set_fresh by exact Fr. unfold values.
    now rewrite map_app.
  - rewrite run_listings; [reflexivity|discriminate].
  - reflexivity.
  - rewrite run_listings; [reflexivity|discriminate].
Qed.

Lemma get_all_items_api_after_witness :
  get_all_items_api store1 = [lamp_listing]
  /\ get_all_items_api store2 = get_all_items_api store1.
Proof.
  split.
  - exact (get_all_items_api_after (CreateListing lamp "alice" 7) empty_store
             eq_refl).
  - exact (get_all_items_api_after
             (SendMessage lamp_id "bob" "interested!" 100%Z 8) store1 I).
Defined.

(** ** Conversations and their items *)

Lemma Forall_adjust_at {V} (P : string * V -> Prop) f k (d : dict V) :
  (forall v, dict_get k d = Some v -> P (k, v) -> P (k, f v)) ->
  Forall P d -> Forall P (dict_adjust f k d).
Proof.
  intros H F. induction F as [|[k' v] d Hx Hd IH]; cbn; [constructor|].
  cbn in H. destruct (String.eqb_spec k k') as [->|N].
  - constructor; [apply H; [reflexivity|assumption]|assumption].
  - constructor; [assumption|]. apply IH. intros v' G. apply H. exact G.
Qed.

(** The item of a conversation is a listing, and [item_info] is never
    null. *)
Lemma items_exist_run c m :
  Forall (fun kc => dict_get (item_id (snd kc)) (listings (data m)) <> None
                    /\ item_info (snd kc) <> Some None)
    (conversations (data m)) ->
  Forall (fun kc => dict_get (item_id (snd kc)) (listings (data (run c m)))
                    <> None
                    /\ item_info (snd kc) <> Some None)
    (conversations (data (run c m))).
Proof.
  intros F. destruct c as [i o r|item s ct now rnd|u|cid u].
  - destruct (run_create_listing i o r m) as [->|[_ ->]]; [assumption|].
    cbn [data _save_data set_listings listings conversations].
    eapply Forall_impl; [|exact F]. intros kc [H1 H2].
    split; [now apply dict_get_set_keeps|assumption].
  - destruct (run_send_message item s ct now rnd m)
      as [->|(l & G & _ & ->)]; [assumption|].
    cbn [data _save_data set_conversations listings conversations].
    unfold sent. destruct (if_convo_id _).
    + apply Forall_adjust; [|assumption]. intros k v. cbn. auto.
    + apply Forall_set; [|assumption]. cbn. split; congruence.
  - assumption.
  - destruct (run_get_conversation cid u m)
      as [->|(c & G & _ & E & L)]; [assumption|].
    rewrite E, L. pose proof F as F'. rewrite Forall_forall in F'.
    destruct (F' _ (dict_get_In _ _ _ G)) as [H1 _]. cbn [snd] in H1.
    apply Forall_adjust.
    + intros k v [H _]. cbn. split; [assumption|congruence].
    + apply Forall_adjust; [|assumption]. intros k v. cbn. auto.
Qed.

Lemma reachable_items_exist m k c :
  reachable m ->
  dict_get k (conversations (data m)) = Some c ->
  (exists l, dict_get (item_id c) (listings (data m)) = Some l)
  /\ item_info c <> Some None.
Proof.
  intros R G.
  assert (F : Forall (fun kc =>
                 dict_get (item_id (snd kc)) (listings (data m)) <> None
                 /\ item_info (snd kc) <> Some None)
                (conversations (data m))).
  { clear G. induction R as [|call m _ IH]; [constructor|].
    now apply items_exist_run. }
  rewrite Forall_forall in F.
  destruct (F _ (dict_get_In _ _ _ G)) as [H1 H2]. cbn [snd] in *.
  split; [|assumption].
  destruct (dict_get (item_id c) (listings (data m))) as [l|];
    [eauto|congruence].
Qed.

(** In a reachable store the item of every conversation is a stored
    listing, so that a stored [item_info] is never null and a participant
    who opens the conversation gets that listing as [item_info]. *)
Theorem conversations_refer_to_listings
  (m : Manager) (k : string) (c : Conversation) :
  reachable m ->
  dict_get k (conversations (data m)) = Some c ->
  exists l,
    dict_get (item_id c) (listings (data m)) = Some l
    /\ item_info c <> Some None
    /\ forall u, In u (participants c) ->
         exists c', fst (get_conversation_api k u m) = Ok None c'
                    /\ item_info c' = Some (Some l).
Proof.
  intros R G.
  destruct (reachable_items_exist m k c R G) as ((l & L) & H2).
  exists l. split; [exact L|]. split; [assumption|].
  intros u M. apply mem_In in M.
  rewrite (get_conversation_api_ok k u m c G M). cbn [fst].
  eexists. split; [reflexivity|]. cbn. now rewrite L.
Qed.

Lemma conversations_refer_to_listings_witness :
  exists l, dict_get (item_id thread) (listings (data store2)) = Some l.
Proof.
  assert (R : reachable store2) by (do 2 apply reachable_run; constructor).
  destruct (conversations_refer_to_listings store2 thread_id thread R eq_refl)
    as (l & G & _).
  exists l. exact G.
Defined.

(** ** What a summary says *)

Lemma NoDup_keys_filter {V} (f : string * V -> bool) (d : dict V) :
  NoDup (keys d) -> NoDup (keys (filter f d)).
Proof.
  unfold keys. induction d as [|[k v] d IH]; cbn; [constructor|].
  intros ND. inversion ND as [|? ? NI ND']; subst.
  destruct (f (k, v)); cbn; [|auto]. constructor; [|auto].
  intros I. apply NI. apply in_map_iff in I. destruct I as (kv & E & I).
  apply filter_In in I. apply in_map_iff. exists kv. tauto.
Qed.

Lemma get_inbox_api_arrival u m inbox :
  get_inbox_api u m = Return inbox ->
  exists arrival,
    inbox_loop u (listings (data m)) (conversations (data m)) []
    = Return arrival
    /\ map convo_id arrival = keys (conversations_of u (data m))
    /\ Permutation inbox arrival.
Proof.
  unfold get_inbox_api.
  destruct (inbox_loop u _ _ []) as [e|arrival] eqn:L; cbn; [discriminate|].
  intros E. inversion E; subst inbox. exists arrival.
  split; [reflexivity|].
  destruct (inbox_loop_keys _ _ _ _ _ L) as (l & -> & K).
  split; [exact K|apply sort_desc_perm].
Qed.

(** On a reachable store each conversation of the user gives one summary
    and no two summaries share a [convo_id]; a summary names the other of
    the two participants, carries the message appended last, and shows the
    name of the listing the conversation is about. *)
Theorem inbox_summary_details
  (m : Manager) (U : string) (inbox : list Summary) :
  reachable m ->
  get_inbox_api U m = Return inbox ->
  NoDup (map convo_id inbox)
  /\ List.length inbox = List.length (conversations_of U (data m))
  /\ forall s, In s inbox ->
       exists c l,
         dict_get (convo_id s) (conversations (data m)) = Some c
         /\ Permutation (participants c) [U; other_participant s]
         /\ other_participant s <> U
         /\ (exists earlier, messages c = earlier ++ [last_message s])
         /\ dict_get (item_id c) (listings (data m)) = Some l
         /\ item_name s = name l.
Proof.
  intros R E. pose proof (reachable_inv m R) as (OK & ND & _).
  destruct (get_inbox_api_arrival U m inbox E) as (arrival & L & K & P).
  split; [|split].
  - apply (Permutation_NoDup (l := keys (conversations_of U (data m)))).
    + rewrite <- K. apply Permutation_map. now apply Permutation_sym.
    + now apply NoDup_keys_filter.
  - rewrite (Permutation_length P).
    rewrite <- (length_map convo_id arrival), K. unfold keys.
    apply length_map.
  - intros s Is. apply (Permutation_in _ P) in Is.
    destruct (inbox_loop_summaries _ _ _ _ _ L) as (l & El & F).
    cbn in El. subst l. rewrite Forall_forall in F.
    destruct (F s Is) as (c & Ic & Mu & S).
    pose proof (In_dict_get _ _ _ ND Ic) as G.
    destruct (reachable_items_exist m _ _ R G) as ((li & Gl) & _).
    destruct (summarize_spec _ _ _ _ _ S) as (_ & Nm & Io & No & La).
    rewrite Gl in Nm. exists c, li. split; [exact G|].
    rewrite Forall_forall in OK.
    destruct (OK _ Ic) as (_ & _ & (a & b & Pab & Nab) & _). cbn [snd] in Pab.
    rewrite Pab in *. split; [|auto].
    destruct Mu as [<-|[<-|[]]], Io as [Eo|[Eo|[]]]; rewrite <- Eo in *;
      try congruence; [reflexivity|apply perm_swap].
Qed.

Lemma inbox_summary_details_witness :
  exists inbox, get_inbox_api "alice" store4 = Return inbox
                /\ NoDup (map convo_id inbox) /\ List.length inbox = 2.
Proof.
  assert (R : reachable store4) by (do 3 apply reachable_run; constructor).
  destruct (get_inbox_api "alice" store4) as [e|inbox] eqn:E;
    [vm_compute in E; discriminate|].
  exists inbox. split; [reflexivity|].
  destruct (inbox_summary_details store4 "alice" inbox R E) as (ND & L & _).
  split; [exact ND|exact L].
Defined.

(** ** Who writes in a conversation *)

Lemma opened_by_listings d d' c s :
  (forall k l, dict_get k (listings d) = Some l ->
               dict_get k (listings d') = Some l) ->
  opened_by d c s -> opened_by d' c s.
Proof.
  intros H (l & G & P & N & F). exists l. auto.
Qed.

Lemma opened_run c m :
  draws_fresh_listing_id c m ->
  store_inv (data m) ->
  Forall (fun kc => exists s, opened_by (data m) (snd kc) s)
    (conversations (data m)) ->
  Forall (fun kc => exists s, opened_by (data (run c m)) (snd kc) s)
    (conversations (data (run c m))).
Proof.
  intros Fr I F. destruct c as [i o r|item s ct now rnd|u|cid u].
  - destruct (run_create_listing i o r m) as [->|[_ ->]]; [assumption|].
    cbn [data _save_data set_listings conversations].
    eapply Forall_impl; [|exact F]. intros kc (s & O). exists s.
    apply (opened_by_listings (data m)); [|assumption].
    cbn [listings]. intros k l G. unfold draws_fresh_listing_id in Fr.
    rewrite dict_get_set_neq; [assumption|congruence].
  - destruct (run_send_message item s ct now rnd m)
      as [->|(l & G & N & ->)]; [assumption|].
    cbn [data _save_data set_conversations conversations].
    assert (Same : forall c0 s0,
               opened_by (data m) c0 s0 ->
               opened_by {| listings := listings (data m);
                            conversations :=
                              sent item s (owner l)
                                {| sender := s; content := ct;
                                   timestamp := now; read := false |} rnd
                                (conversations (data m)) |} c0 s0)
      by (intros c0 s0; apply opened_by_listings; auto).
    unfold sent in *.
    destruct (find_convo item s (owner l) (conversations (data m)))
      as [cid|] eqn:Fd.
    + pose proof I as (OK & ND & _).
      rewrite (if_convo_id_found _ _ _ _ _ OK Fd) in *.
      destruct (find_convo_Some _ _ _ _ _ Fd) as (c & Ic & M).
      pose proof (In_dict_get _ _ _ ND Ic) as Gc.
      apply matches_spec in M. destruct M as (M1 & M2 & M3).
      apply Forall_adjust_at.
      * intros v Gv (s0 & l0 & G0 & P0 & N0 & F0). cbn [snd] in *.
        assert (v = c) by congruence. subst v. cbn [listings] in G0.
        assert (l0 = l) by congruence. subst l0.
        assert (s = s0).
        { rewrite P0 in M2. destruct M2 as [E|[E|[]]]; congruence. }
        subst s0. exists s. exists l. cbn. repeat split; try assumption.
        apply Forall_app. split; [assumption|]. repeat constructor.
      * eapply Forall_impl; [|exact F]. intros kc (s0 & O). exists s0.
        now apply Same.
    + cbn [if_convo_id] in *. apply Forall_set.
      * exists s, l. cbn. repeat split; try assumption. repeat constructor.
      * eapply Forall_impl; [|exact F]. intros kc (s0 & O). exists s0.
        now apply Same.
  - assumption.
  - destruct (run_get_conversation cid u m)
      as [->|(c & G & _ & E & L)]; [assumption|].
    assert (Same : forall c0 s0,
               opened_by (data m) c0 s0 ->
               opened_by (data (run (GetConversation cid u) m)) c0 s0)
      by (intros c0 s0; apply opened_by_listings; intros; now rewrite L).
    rewrite E.
    assert (Keep : forall f : Conversation -> Conversation,
               (forall v, item_id (f v) = item_id v
                          /\ participants (f v) = participants v
                          /\ map sender (messages (f v))
                             = map sender (messages v)) ->
               forall d v s0, opened_by d v s0 -> opened_by d (f v) s0).
    { intros f Hf d v s0 (l0 & G0 & P0 & N0 & F0).
      destruct (Hf v) as (E1 & E2 & E3). exists l0.
      rewrite E1, E2. repeat split; try assumption.
      rewrite Forall_forall in *. intros msg Hm.
      apply (in_map sender) in Hm. rewrite E3 in Hm.
      apply in_map_iff in Hm. destruct Hm as (msg0 & <- & Hm0). auto. }
    apply Forall_adjust.
    + intros k v (s0 & O). exists s0. apply Keep; [|assumption].
      intros v'. cbn. auto.
    + apply Forall_adjust.
      * intros k v (s0 & O). exists s0. apply Keep; [|assumption].
        intros v'. cbn. repeat split. rewrite map_map. apply map_ext.
        intros msg. apply mark_read_spec.
      * eapply Forall_impl; [|exact F]. intros kc (s0 & O). exists s0.
        now apply Same.
Qed.

Lemma opened_run_all cs : forall m,
  fresh_listing_run cs m ->
  store_inv (data m) ->
  Forall (fun kc => exists s, opened_by (data m) (snd kc) s)
    (conversations (data m)) ->
  Forall (fun kc => exists s, opened_by (data (run_all cs m)) (snd kc) s)
    (conversations (data (run_all cs m))).
Proof.
  induction cs as [|c cs IH]; intros m Fr I F; [exact F|].
  destruct Fr as [Fr Frs]. cbn [run_all fold_left].
  apply (IH (run c m)); [assumption|now apply store_inv_run|].
  now apply opened_run.
Qed.

(** As long as [uuid4] gives each listing an identifier of its own, every
    conversation of a store built from the empty one lists the user who
    opened it first and the owner of its item second, and all its messages
    are from the former: the owner never writes, and the user who opened
    the conversation has nothing unread in it. *)
Theorem only_the_opener_writes (cs : list Call) (k : string)
  (c : Conversation) :
  fresh_listing_run cs empty_store ->
  dict_get k (conversations (data (run_all cs empty_store))) = Some c ->
  exists s l,
    dict_get (item_id c) (listings (data (run_all cs empty_store))) = Some l
    /\ participants c = [s; owner l]
    /\ s <> owner l
    /\ (forall msg, In msg (messages c) -> sender msg = s)
    /\ unread_for s c = 0.
Proof.
  intros Fr G.
  pose proof (opened_run_all cs empty_store Fr store_inv_empty
                (Forall_nil _)) as F.
  rewrite Forall_forall in F.
  destruct (F _ (dict_get_In _ _ _ G)) as (s & l & Gl & P & N & Fs).
  cbn [snd] in *. exists s, l. repeat split; try assumption.
  - now apply Forall_forall.
  - unfold unread_for. induction Fs as [|msg msgs E _ IH]; [reflexivity|].
    cbn. rewrite E, String.eqb_refl, andb_false_r. exact IH.
Qed.

Lemma only_the_opener_writes_witness :
  exists s l,
    dict_get (item_id thread) (listings (data store3)) = Some l
    /\ participants thread = [s; owner l].
Proof.
  assert (Fr : fresh_listing_run
                 [CreateListing lamp "alice" 7;
                  SendMessage lamp_id "bob" "interested!" 100%Z 8]
                 empty_store) by (cbn; auto).
  destruct (only_the_opener_writes _ thread_id thread Fr eq_refl)
    as (s & l & G & P & _).
  exists s, l. split; [exact G|exact P].
Defined.

(** ** Timestamps *)

Lemma timed_le t t' c : (t <= t')%Z -> timed t c -> timed t' c.
Proof.
  intros L [S F]. split; [assumption|].
  eapply Forall_impl; [|exact F]. intros x Hx. cbn in Hx. lia.
Qed.

Lemma sorted_snoc l x :
  StronglySorted Z.le l -> Forall (fun y => (y <= x)%Z) l ->
  StronglySorted Z.le (l ++ [x]).
Proof.
  induction 1 as [|a l S IH F]; intros B; cbn.
  - repeat constructor.
  - inversion B; subst. constructor; [auto|].
    apply Forall_app. split; [assumption|]. repeat constructor. assumption.
Qed.

Lemma timed_add_message t msg c :
  (t <= timestamp msg)%Z -> timed t c ->
  timed (timestamp msg) (add_message msg c).
Proof.
  intros L [S F]. unfold timed. cbn [messages add_message].
  rewrite map_app. cbn [map]. split.
  - apply sorted_snoc; [assumption|].
    eapply Forall_impl; [|exact F]. intros x Hx. cbn in Hx. lia.
  - apply Forall_app. split.
    + eapply Forall_impl; [|exact F]. intros x Hx. cbn in Hx. lia.
    + repeat constructor. lia.
Qed.

Lemma timed_run_all cs : forall t m,
  clock_run t cs ->
  Forall (fun kc => timed t (snd kc)) (conversations (data m)) ->
  exists t', Forall (fun kc => timed t' (snd kc))
               (conversations (data (run_all cs m))).
Proof.
  induction cs as [|c cs IH]; intros t m Ck F; [eauto|].
  cbn [run_all fold_left].
  destruct c as [i o r|item s ct now rnd|u|cid u]; cbn [clock_run] in Ck.
  - apply (IH t); [assumption|].
    destruct (run_create_listing i o r m) as [->|[_ ->]]; assumption.
  - destruct Ck as [L Ck]. apply (IH now); [assumption|].
    assert (F' : Forall (fun kc => timed now (snd kc))
                   (conversations (data m))).
    { eapply Forall_impl; [|exact F]. intros kc. now apply timed_le. }
    destruct (run_send_message item s ct now rnd m)
      as [->|(l & _ & _ & ->)]; [assumption|].
    cbn [data _save_data set_conversations conversations]. unfold sent.
    destruct (if_convo_id _).
    + apply Forall_adjust; [|assumption]. intros k v Hv. cbn [snd] in *.
      apply (timed_add_message now
               {| sender := s; content := ct; timestamp := now;
                  read := false |} v); [cbn; lia|assumption].
    + apply Forall_set; [|assumption]. unfold timed.
      cbn [snd messages new_convo map timestamp].
      split; [repeat constructor|constructor; [lia|constructor]].
  - now apply (IH t).
  - apply (IH t); [assumption|].
    destruct (run_get_conversation cid u m)
      as [->|(c & _ & _ & -> & _)]; [assumption|].
    assert (Keep : forall f : Conversation -> Conversation,
               (forall v, map timestamp (messages (f v))
                          = map timestamp (messages v)) ->
               forall d, Forall (fun kc => timed t (snd kc)) d ->
                         Forall (fun kc => timed t (snd kc))
                           (dict_adjust f cid d)).
    { intros f Hf d Fd. apply Forall_adjust; [|assumption].
      intros k v. unfold timed. cbn [snd]. now rewrite Hf. }
    apply Keep; [reflexivity|]. apply Keep; [|assumption].
    intros v. cbn. rewrite map_map. apply map_ext. intros msg.
    apply mark_read_spec.
Qed.

(** When the clock read by successive messages never goes back, the
    messages of every conversation carry non-decreasing timestamps, and the
    message appended last, which is the one the inbox sorts by, has the
    latest. *)
Theorem timestamps_follow_the_clock
  (t : pyfloat) (cs : list Call) (k : string) (c : Conversation) :
  clock_run t cs ->
  dict_get k (conversations (data (run_all cs empty_store))) = Some c ->
  StronglySorted Z.le (map timestamp (messages c))
  /\ forall earlier last, messages c = earlier ++ [last] ->
       forall msg, In msg earlier -> (timestamp msg <= timestamp last)%Z.
Proof.
  intros Ck G.
  destruct (timed_run_all cs t empty_store Ck (Forall_nil _)) as (t' & F).
  rewrite Forall_forall in F.
  destruct (F _ (dict_get_In _ _ _ G)) as [S _]. cbn [snd] in S.
  split; [exact S|]. intros earlier last E msg I. rewrite E in S.
  rewrite map_app in S. cbn [map] in S.
  assert (H : forall l x, StronglySorted Z.le (l ++ [x]) ->
                          Forall (fun y => (y <= x)%Z) l).
  { induction l as [|a l IHl]; intros x Hs; [constructor|].
    cbn in Hs. inversion Hs as [|? ? Hs' Hf]; subst. constructor.
    - rewrite Forall_forall in Hf. apply Hf. apply in_or_app. right.
      now left.
    - now apply IHl. }
  apply H in S. rewrite Forall_forall in S. apply S. now apply in_map.
Qed.

Lemma timestamps_follow_the_clock_witness :
  clock_run 0%Z [CreateListing lamp "alice" 7;
                 SendMessage lamp_id "bob" "interested!" 100%Z 8;
                 SendMessage lamp_id "bob" "still there?" 150%Z 9]
  /\ exists c, dict_get thread_id
                 (conversations
                    (data (run (SendMessage lamp_id "bob" "still there?"
                                  150%Z 9) store2))) = Some c
               /\ StronglySorted Z.le (map timestamp (messages c)).
Proof.
  assert (Ck : clock_run 0%Z
                 [CreateListing lamp "alice" 7;
                  SendMessage lamp_id "bob" "interested!" 100%Z 8;
                  SendMessage lamp_id "bob" "still there?" 150%Z 9])
    by (cbn; lia).
  split; [exact Ck|]. eexists. split; [reflexivity|].
  apply (timestamps_follow_the_clock 0%Z _ thread_id _ Ck eq_refl).
Defined.

(** * Properties of the user manager *)

Lemma truthy_str s : truthy (JStr s) = true <-> s <> "".
Proof.
  cbn. destruct (String.eqb_spec s ""); cbn; split; congruence.
Qed.

Lemma users_of_to_json u : users_of_json (users_to_json u) = Some u.
Proof.
  unfold users_of_json, users_to_json.
  now apply (dict_of_to_json JStr (fun v => as_str (Some v))).
Qed.

Section UserManagerFacts.
Variable lower : string -> string.
Variable sha256_hexdigest : string -> string.

(** The three ways [register_api] returns. *)
Lemma register_api_cases username password m :
  (register_api lower sha256_hexdigest username password m
   = Gives (Failed registration_empty, m)
   /\ (truthy username = false \/ truthy password = false))
  \/ (exists u, username = JStr u /\ u <> "" /\ truthy password = true
      /\ dict_get (lower u) (users m) <> None
      /\ register_api lower sha256_hexdigest username password m
         = Gives (Failed registration_exists, m))
  \/ (exists u p, username = JStr u /\ password = JStr p
      /\ u <> "" /\ p <> ""
      /\ dict_get (lower u) (users m) = None
      /\ register_api lower sha256_hexdigest username password m
         = Gives (Ok (Some registration_done) tt,
                  _save_users
                    {| users := dict_set (lower u) (sha256_hexdigest p)
                                  (users m);
                       users_file := users_file m |}))
  \/ (truthy username = true /\ truthy password = true
      /\ (is_str username = false
          \/ (exists u, username = JStr u
                        /\ dict_get (lower u) (users m) = None
                        /\ is_str password = false))
      /\ register_api lower sha256_hexdigest username password m
         = Throws AttributeError).
Proof.
  unfold register_api.
  destruct (truthy username) eqn:Tu; cbn [negb orb]; [|left; auto].
  destruct (truthy password) eqn:Tp; cbn [negb orb]; [|left; auto].
  right.
  destruct username as [|b|z|x|u|l|o];
    try (right; right; repeat split; auto; fail).
  apply truthy_str in Tu. unfold dict_has.
  destruct (dict_get (lower u) (users m)) as [h|] eqn:G.
  - left. exists u. repeat split; auto. congruence.
  - right.
    destruct password as [|b|z|x|p|l|o];
      try (right; repeat split; auto; right; exists u; auto; fail).
    apply truthy_str in Tp. left. exists u, p. repeat split; auto.
Qed.

(** [register_api] never changes the hash stored for an existing user.  A
    refusal (empty or missing name or password, or a name already taken up
    to case) returns the manager unchanged; a success adds the lower-cased
    name with the digest of the password after the existing users and
    writes the users file. *)
Theorem register_api_effect
  (username password : json) (m m' : UserManager) (r : Response unit) :
  register_api lower sha256_hexdigest username password m = Gives (r, m') ->
  (forall k h, dict_get k (users m) = Some h ->
               dict_get k (users m') = Some h)
  /\ (success r = false ->
      m' = m /\ (r = Failed registration_empty
                 \/ r = Failed registration_exists))
  /\ (success r = true ->
      exists u p,
        username = JStr u /\ password = JStr p /\ u <> "" /\ p <> ""
        /\ dict_get (lower u) (users m) = None
        /\ users m' = users m ++ [(lower u, sha256_hexdigest p)]
        /\ users_file m' = Some (Document (users_to_json (users m')))).
Proof.
  intros E.
  destruct (register_api_cases username password m)
    as [[R _]|[(u & _ & _ & _ & _ & R)|[(u & p & Eu & Ep & Nu & Np & G & R)
                                      |(_ & _ & _ & R)]]];
    rewrite R in E; try discriminate; injection E as <- <-.
  - repeat split; auto; discriminate.
  - repeat split; auto; discriminate.
  - cbn [users _save_users users_file success]. split; [|split].
    + intros k h Gk. rewrite dict_get_set_neq; [assumption|congruence].
    + discriminate.
    + intros _. exists u, p. repeat split; auto.
      now apply dict_set_fresh.
Qed.

(** A name already registered, in any case that lowers to the stored one,
    cannot be registered again, whatever is given as password. *)
Theorem register_api_refuses_taken_name
  (u : string) (password : json) (m : UserManager) (h : string) :
  u <> "" -> truthy password = true ->
  dict_get (lower u) (users m) = Some h ->
  register_api lower sha256_hexdigest (JStr u) password m
  = Gives (Failed registration_exists, m).
Proof.
  intros Nu Tp G. unfold register_api.
  apply truthy_str in Nu. rewrite Nu, Tp. cbn [negb orb].
  unfold dict_has. now rewrite G.
Qed.

(** [login_api] returns a name exactly for a non-empty string name whose
    lower case is registered with the digest of the non-empty string
    password given; the name returned is the lower-cased one. *)
Theorem login_api_succeeds_iff
  (username password : json) (m : UserManager) (n : string) :
  login_api lower sha256_hexdigest username password m = Gives (Some n)
  <-> exists u p,
        username = JStr u /\ password = JStr p /\ u <> "" /\ p <> ""
        /\ n = lower u
        /\ dict_get (lower u) (users m) = Some (sha256_hexdigest p).
Proof.
  unfold login_api. split.
  - destruct (truthy username) eqn:Tu; cbn [negb orb]; [|discriminate].
    destruct (truthy password) eqn:Tp; cbn [negb orb]; [|discriminate].
    destruct password as [|b|z|x|p|l|o]; try discriminate.
    destruct username as [|b|z|x|u|l|o]; try discriminate.
    apply truthy_str in Tu, Tp. unfold _hash_password.
    destruct (dict_get (lower u) (users m)) as [h|] eqn:G; [|discriminate].
    destruct (String.eqb_spec h (sha256_hexdigest p)) as [->|N];
      [|discriminate].
    intros E. injection E as <-. exists u, p. repeat split; auto.
  - intros (u & p & -> & -> & Nu & Np & -> & G).
    apply truthy_str in Nu, Np. rewrite Nu, Np. cbn [negb orb].
    unfold _hash_password. now rewrite G, String.eqb_refl.
Qed.

(** After a successful registration the same name and password log in,
    under the lower-cased name; another password logs in only if it is a
    non-empty string with the same digest. *)
Theorem register_then_login
  (username password : json) (m m' : UserManager) (msg : option string) :
  register_api lower sha256_hexdigest username password m
  = Gives (Ok msg tt, m') ->
  exists u p,
    username = JStr u /\ password = JStr p
    /\ login_api lower sha256_hexdigest username password m'
       = Gives (Some (lower u))
    /\ forall p',
         login_api lower sha256_hexdigest username (JStr p') m'
         = Gives (if negb (p' =? "")
                     && (sha256_hexdigest p =? sha256_hexdigest p')
                  then Some (lower u) else None).
Proof.
  intros E.
  destruct (register_api_cases username password m)
    as [[R _]|[(u & _ & _ & _ & _ & R)|[(u & p & Eu & Ep & Nu & Np & G & R)
                                      |(_ & _ & _ & R)]]];
    rewrite R in E; try discriminate.
  injection E as _ <-. subst username password. exists u, p.
  assert (L : forall p',
             login_api lower sha256_hexdigest (JStr u) (JStr p')
               (_save_users
                  {| users := dict_set (lower u) (sha256_hexdigest p)
                                (users m);
                     users_file := users_file m |})
             = Gives (if negb (p' =? "")
                         && (sha256_hexdigest p =? sha256_hexdigest p')
                      then Some (lower u) else None)).
  { intros p'. unfold login_api, _hash_password.
    apply truthy_str in Nu. rewrite Nu. cbn [negb orb truthy].
    destruct (p' =? ""); cbn [negb andb]; [reflexivity|].
    cbn [users _save_users]. rewrite dict_get_set_eq.
    now destruct (sha256_hexdigest p =? sha256_hexdigest p'). }
  split; [reflexivity|]. split; [reflexivity|]. split; [|exact L].
  rewrite L. apply String.eqb_neq in Np. now rewrite Np, String.eqb_refl.
Qed.

Lemma registered_inv m :
  registered lower sha256_hexdigest m ->
  UserManager__init__ (users_file m) = Some m /\ NoDup (keys (users m)).
Proof.
  induction 1 as [|username password m _ [IH ND]].
  - split; [reflexivity|constructor].
  - unfold register.
    destruct (register_api_cases username password m)
      as [[R _]|[(u & _ & _ & _ & _ & R)|[(u & p & _ & _ & _ & _ & _ & R)
                                        |(_ & _ & _ & R)]]];
      rewrite R; auto.
    split.
    + unfold UserManager__init__, _save_users, _load_users.
      cbn [users users_file]. now rewrite users_of_to_json.
    + cbn [users _save_users]. now apply NoDup_keys_set.
Qed.

(** Restarting the user manager on its own file gives back the same users
    with the same digests, in the same order: every registration is on file
    before [register_api] returns. *)
Theorem user_manager_restart (m : UserManager) :
  registered lower sha256_hexdigest m ->
  UserManager__init__ (users_file m) = Some m
  /\ NoDup (keys (users m))
  /\ forall k h, In (k, h) (users m) -> dict_get k (users m) = Some h.
Proof.
  intros R. destruct (registered_inv m R) as [I ND].
  split; [exact I|]. split; [exact ND|].
  intros k h. now apply In_dict_get.
Qed.

End UserManagerFacts.

Lemma register_api_effect_witness :
  exists m,
    register_api lower_ascii toy_digest (JStr "Alice") (JStr "secret")
      no_users = Gives (Ok (Some registration_done) tt, m)
    /\ users m = [("alice", "terces")].
Proof.
  destruct (register_api lower_ascii toy_digest (JStr "Alice")
              (JStr "secret") no_users) as [e|[r m]] eqn:E;
    [vm_compute in E; discriminate|].
  assert (Er : r = Ok (Some registration_done) tt)
    by (vm_compute in E; now inversion E).
  subst r. exists m. split; [reflexivity|].
  destruct (register_api_effect lower_ascii toy_digest _ _ _ _ _ E)
    as (_ & _ & S).
  destruct (S eq_refl) as (u & p & Eu & Ep & _ & _ & _ & U & _).
  injection Eu as <-. injection Ep as <-. exact U.
Defined.

Lemma register_api_refuses_taken_name_witness :
  register_api lower_ascii toy_digest (JStr "ALICE") (JInt 7)
    {| users := [("alice", "terces")]; users_file := None |}
  = Gives (Failed registration_exists,
           {| users := [("alice", "terces")]; users_file := None |}).
Proof.
  apply (register_api_refuses_taken_name lower_ascii toy_digest "ALICE"
           (JInt 7) _ "terces"); [discriminate|reflexivity|reflexivity].
Defined.

Lemma login_api_succeeds_iff_witness :
  login_api lower_ascii toy_digest (JStr "Alice") (JStr "secret")
    {| users := [("alice", "terces")]; users_file := None |}
  = Gives (Some "alice").
Proof.
  apply (login_api_succeeds_iff lower_ascii toy_digest).
  exists "Alice", "secret". repeat split; discriminate.
Defined.

Lemma register_then_login_witness :
  exists m,
    register_api lower_ascii toy_digest (JStr "Alice") (JStr "secret")
      no_users = Gives (Ok (Some registration_done) tt, m)
    /\ login_api lower_ascii toy_digest (JStr "Alice") (JStr "secret") m
       = Gives (Some "alice").
Proof.
  eexists. split; [reflexivity|].
  destruct (register_then_login lower_ascii toy_digest (JStr "Alice")
              (JStr "secret") no_users _ _ eq_refl)
    as (u & p & Eu & _ & L & _).
  injection Eu as <-. exact L.
Defined.

Lemma user_manager_restart_witness :
  registered lower_ascii toy_digest
    (register lower_ascii toy_digest (JStr "Alice") (JStr "secret") no_users)
  /\ option_map users
       (UserManager__init__
          (users_file (register lower_ascii toy_digest (JStr "Alice")
                         (JStr "secret") no_users)))
     = Some [("alice", "terces")].
Proof.
  assert (R : registered lower_ascii toy_digest
                (register lower_ascii toy_digest (JStr "Alice")
                   (JStr "secret") no_users))
    by (apply registered_more; constructor).
  split; [exact R|].
  destruct (user_manager_restart lower_ascii toy_digest _ R) as (E & _).
  rewrite E. reflexivity.
Defined.

(** * Properties of the routes *)

Section RouteFacts.
Variable lower : string -> string.
Variable sha256_hexdigest : string -> string.

Lemma register_keeps username password m k :
  dict_get k (users m) <> None ->
  dict_get k (users (register lower sha256_hexdigest username password m))
  <> None.
Proof.
  intros H. unfold register.
  destruct (register_api_cases lower sha256_hexdigest username password m)
    as [[R _]|[(u & _ & _ & _ & _ & R)|[(u & p & _ & _ & _ & _ & _ & R)
                                      |(_ & _ & _ & R)]]];
    rewrite R; auto.
  cbn [users _save_users]. now apply dict_get_set_keeps.
Qed.

Lemma login_api_Some username password m n :
  login_api lower sha256_hexdigest username password m = Gives (Some n) ->
  dict_get n (users m) <> None.
Proof.
  unfold login_api. destruct (_ || _); [discriminate|].
  destruct password; try discriminate. destruct username; try discriminate.
  destruct (dict_get (lower s0) (users m)) as [h|] eqn:G; [|discriminate].
  destruct (h =? _); [|discriminate].
  intros E. injection E as <-. congruence.
Qed.

Lemma if_username_Some o u : if_username o = Some u -> o = Some u /\ u <> "".
Proof.
  destruct o as [v|]; cbn; [|discriminate].
  destruct (String.eqb_spec v ""); [discriminate|].
  intros E. injection E as <-. auto.
Qed.

Lemma cookie_set_cookie (P : string -> Prop) client s w :
  (forall c u, cookie w c = Some u -> P u) ->
  (forall u, s = Some u -> P u) ->
  forall c u, cookie (set_cookie client s w) c = Some u -> P u.
Proof.
  intros Hw Hs c u. cbn [set_cookie cookie].
  destruct (Nat.eqb c client); [apply Hs|apply Hw].
Qed.

(** What the server keeps true while it serves requests. *)
Lemma served_inv w :
  served lower sha256_hexdigest w ->
  registered lower sha256_hexdigest (user_manager (app w))
  /\ reachable (marketplace_manager (app w))
  /\ (forall c u, cookie w c = Some u ->
        u <> "" /\ dict_get u (users (user_manager (app w))) <> None)
  /\ Forall (fun kl => dict_get (owner (snd kl))
                         (users (user_manager (app w))) <> None)
       (listings (data (marketplace_manager (app w))))
  /\ conversations (data (marketplace_manager (app w))) = [].
Proof.
  induction 1 as [|client r w _ (Ru & Rm & Ck & Ow & Cv)].
  - cbn. split; [constructor|]. split; [constructor|].
    split; [discriminate|]. split; [constructor|reflexivity].
  - assert (Same : registered lower sha256_hexdigest (user_manager (app w))
                   /\ reachable (marketplace_manager (app w))
                   /\ (forall c u, cookie w c = Some u ->
                         u <> ""
                         /\ dict_get u (users (user_manager (app w)))
                            <> None)
                   /\ Forall (fun kl =>
                                dict_get (owner (snd kl))
                                  (users (user_manager (app w))) <> None)
                        (listings (data (marketplace_manager (app w))))
                   /\ conversations (data (marketplace_manager (app w)))
                      = []) by auto.
    destruct r as [| | |d|d| |d rnd]; cbn [serve]; try exact Same.
    + cbn [route_logout snd].
      split; [exact Ru|]. split; [exact Rm|]. split; [|auto].
      apply cookie_set_cookie; [exact Ck|discriminate].
    + unfold api_register.
      assert (E : match register_api lower sha256_hexdigest
                          (py_get "username" d) (py_get "password" d)
                          (user_manager (app w)) with
                  | Throws _ => user_manager (app w)
                  | Gives (_, um) => um
                  end
                  = register lower sha256_hexdigest (py_get "username" d)
                      (py_get "password" d) (user_manager (app w)))
        by reflexivity.
      destruct (register_api _ _ _ _ _) as [e|[res um]]; [exact Same|].
      cbn [app user_manager marketplace_manager cookie]. subst um.
      split; [now constructor|]. split; [assumption|]. split.
      * intros c u H. destruct (Ck c u H) as [N G].
        split; [assumption|now apply register_keeps].
      * split; [|assumption]. eapply Forall_impl; [|exact Ow].
        intros kl. apply register_keeps.
    + unfold api_login.
      destruct (login_api _ _ _ _ _) as [e|o] eqn:L; [exact Same|].
      destruct (if_username o) as [u|] eqn:I; cbn [snd].
      * apply if_username_Some in I. destruct I as [-> N].
        apply login_api_Some in L.
        split; [exact Ru|]. split; [exact Rm|]. split; [|auto].
        apply cookie_set_cookie; [exact Ck|].
        intros u' E. injection E as <-. auto.
      * split; [exact Ru|]. split; [exact Rm|]. split; [|auto].
        apply cookie_set_cookie; [exact Ck|]. apply Ck.
    + unfold api_create_listing.
      destruct (cookie w client) as [u|] eqn:S; [|exact Same].
      destruct (create_listing_api d u rnd (marketplace_manager (app w)))
        as [res mm] eqn:E.
      cbn [snd app cookie user_manager marketplace_manager].
      assert (Em : mm = run (CreateListing d u rnd)
                         (marketplace_manager (app w)))
        by (cbn [run]; now rewrite E).
      split; [assumption|]. split; [subst mm; now constructor|].
      split; [assumption|].
      destruct (run_create_listing d u rnd (marketplace_manager (app w)))
        as [R|[_ R]]; rewrite R in Em; subst mm; [auto|].
      cbn [data _save_data set_listings listings conversations].
      split; [|assumption]. apply Forall_set; [|assumption].
      cbn. now apply (Ck client u).
Qed.

(** A session only ever names a registered user, and so does the owner of
    every listing: sessions are opened by a successful login alone,
    listings are created under the name in the session, and users are
    never removed. *)
Theorem sessions_and_owners_are_users (w : World) :
  served lower sha256_hexdigest w ->
  (forall c u, cookie w c = Some u ->
     u <> "" /\ exists h, dict_get u (users (user_manager (app w))) = Some h)
  /\ forall l, In l (get_all_items_api (marketplace_manager (app w))) ->
       exists h, dict_get (owner l) (users (user_manager (app w))) = Some h.
Proof.
  intros S. destruct (served_inv w S) as (_ & _ & Ck & Ow & _).
  assert (X : forall k (d : dict string),
             dict_get k d <> None -> exists h, dict_get k d = Some h).
  { intros k d H. destruct (dict_get k d); [eauto|congruence]. }
  split.
  - intros c u H. destruct (Ck c u H). auto.
  - intros l Hl. unfold get_all_items_api, values in Hl.
    apply in_map_iff in Hl. destruct Hl as (kl & <- & Hl).
    rewrite Forall_forall in Ow. apply X. now apply Ow.
Qed.

(** The routes never call [send_message_api]: a server started on an
    empty store holds no conversation, and [/api/marketplace-data] answers
    401 without a session and otherwise the user's name, all listings and
    an empty inbox, without raising. *)
Theorem routes_never_open_conversations (w : World) (c : nat) :
  served lower sha256_hexdigest w ->
  conversations (data (marketplace_manager (app w))) = []
  /\ api_get_marketplace_data (cookie w c) (app w)
     = Return
         match cookie w c with
         | None => Json 401 Unauthorized401
         | Some u =>
             Json 200
               (MarketplaceData u
                  (get_all_items_api (marketplace_manager (app w))) [])
         end.
Proof.
  intros S. destruct (served_inv w S) as (_ & _ & _ & _ & Cv).
  split; [exact Cv|]. unfold api_get_marketplace_data.
  destruct (cookie w c) as [u|]; [|reflexivity].
  unfold get_inbox_api. now rewrite Cv.
Qed.

(** What a request can change: only the cookie of the client that sent it,
    and that only at login or logout; the users only at registration; the
    marketplace only when a client holding a session posts a listing, which
    is then created under the name in that session. *)
Theorem requests_change_only_their_part
  (client : nat) (r : Request) (w : World) :
  let w' := serve lower sha256_hexdigest client r w in
  (forall c, c <> client -> cookie w' c = cookie w c)
  /\ (cookie w' client = cookie w client
      \/ r = GetLogout \/ exists d, r = PostLogin d)
  /\ (user_manager (app w') = user_manager (app w)
      \/ exists d, r = PostRegister d)
  /\ (marketplace_manager (app w') = marketplace_manager (app w)
      \/ exists d rnd u,
           r = PostListing d rnd /\ cookie w client = Some u
           /\ marketplace_manager (app w')
              = snd (create_listing_api d u rnd
                       (marketplace_manager (app w)))).
Proof.
  cbv zeta.
  assert (Other : forall s c, c <> client ->
             cookie (set_cookie client s w) c = cookie w c).
  { intros s c N. cbn [set_cookie cookie]. apply Nat.eqb_neq in N.
    now rewrite N. }
  destruct r as [| | |d|d| |d rnd]; cbn [serve].
  - auto.
  - auto.
  - split; [apply Other|]. cbn [set_cookie app]. auto.
  - unfold api_register.
    destruct (register_api _ _ _ _ _) as [e|[res um]]; [auto|].
    cbn [app cookie marketplace_manager]. split; [auto|]. split; [auto|].
    split; [eauto|auto].
  - destruct (api_login _ _ _ _ _) as [e|[rep s]]; [auto|].
    split; [apply Other|]. cbn [set_cookie app].
    split; [right; right; eauto|]. split; left; reflexivity.
  - auto.
  - cbn [app cookie]. split; [auto|]. split; [auto|].
    unfold api_create_listing.
    destruct (cookie w client) as [u|]; [|auto].
    destruct (create_listing_api d u rnd (marketplace_manager (app w)))
      as [res mm] eqn:E.
    cbn [snd user_manager marketplace_manager]. split; [auto|].
    right. exists d, rnd, u. rewrite E. auto.
Qed.

Lemma register_api_fresh u p m :
  u <> "" -> p <> "" -> dict_get (lower u) (users m) = None ->
  register_api lower sha256_hexdigest (JStr u) (JStr p) m
  = Gives (Ok (Some registration_done) tt,
           _save_users
             {| users := dict_set (lower u) (sha256_hexdigest p) (users m);
                users_file := users_file m |}).
Proof.
  intros Nu Np G. unfold register_api, dict_has.
  apply truthy_str in Nu, Np. now rewrite Nu, Np, G.
Qed.

Lemma login_api_known u p m :
  u <> "" -> p <> "" ->
  dict_get (lower u) (users m) = Some (sha256_hexdigest p) ->
  login_api lower sha256_hexdigest (JStr u) (JStr p) m
  = Gives (Some (lower u)).
Proof.
  intros Nu Np G. unfold login_api, _hash_password.
  apply truthy_str in Nu, Np. now rewrite Nu, Np, G, String.eqb_refl.
Qed.

(** A client that registers a name not yet taken, logs in with the same
    credentials and posts a listing with its four fields ends up owning
    that listing under the lower-cased name; the index then redirects it to
    the marketplace page; once it has logged out, posting a listing is
    answered 401. *)
Theorem register_login_post_listing
  (client : nat) (w : World) (credentials item_data : dict json)
  (u p : string) (rnd : N) :
  py_get "username" credentials = JStr u ->
  py_get "password" credentials = JStr p ->
  u <> "" -> p <> "" -> lower u <> "" ->
  dict_get (lower u) (users (user_manager (app w))) = None ->
  (forall k, In k required_fields -> truthy (py_get k item_data) = true) ->
  let w1 := serve lower sha256_hexdigest client (PostRegister credentials) w in
  let w2 := serve lower sha256_hexdigest client (PostLogin credentials) w1 in
  let w3 :=
    serve lower sha256_hexdigest client (PostListing item_data rnd) w2 in
  let w4 := serve lower sha256_hexdigest client GetLogout w3 in
  cookie w2 client = Some (lower u)
  /\ route_index (cookie w2 client) = Redirect "route_marketplace"
  /\ dict_get (str_uuid (uuid4 rnd))
       (listings (data (marketplace_manager (app w3))))
     = Some (listing_of item_data (lower u) rnd)
  /\ cookie w4 client = None
  /\ api_create_listing item_data rnd (cookie w4 client) (app w4)
     = (Json 401 Unauthorized401, app w4).
Proof.
  intros Eu Ep Nu Np Nl G T w1 w2 w3 w4.
  assert (E1 : w1 = {| app := {| user_manager :=
                                   _save_users
                                     {| users := dict_set (lower u)
                                                   (sha256_hexdigest p)
                                                   (users (user_manager
                                                             (app w)));
                                        users_file :=
                                          users_file (user_manager (app w)) |};
                                 marketplace_manager :=
                                   marketplace_manager (app w) |};
                       cookie := cookie w |}).
  { unfold w1. cbn [serve]. unfold api_register.
    now rewrite Eu, Ep, (register_api_fresh u p _ Nu Np G). }
  assert (C2 : cookie w2 client = Some (lower u)).
  { unfold w2. cbn [serve]. unfold api_login. rewrite Eu, Ep.
    rewrite (login_api_known u p (user_manager (app w1)) Nu Np).
    - unfold if_username. apply String.eqb_neq in Nl. rewrite Nl.
      cbn [snd set_cookie cookie]. now rewrite Nat.eqb_refl.
    - rewrite E1. cbn [app user_manager _save_users users].
      apply dict_get_set_eq. }
  assert (C4 : cookie w4 client = None).
  { unfold w4. cbn [serve route_logout snd set_cookie cookie].
    now rewrite Nat.eqb_refl. }
  split; [exact C2|]. split; [now rewrite C2|]. split.
  - unfold w3. cbn [serve app]. unfold api_create_listing. rewrite C2.
    unfold create_listing_api.
    apply all_required in T. rewrite T. cbn [negb snd marketplace_manager].
    cbn [data _save_data set_listings listings].
    fold (listing_of item_data (lower u) rnd). apply dict_get_set_eq.
  - split; [exact C4|]. now rewrite C4.
Qed.

End RouteFacts.

Lemma sessions_and_owners_are_users_witness :
  served lower_ascii toy_digest world3
  /\ cookie world3 0 = Some "alice"
  /\ exists h, dict_get "alice" (users (user_manager (app world3))) = Some h.
Proof.
  assert (S : served lower_ascii toy_digest world3)
    by (do 3 apply served_request; constructor).
  split; [exact S|]. split; [reflexivity|].
  destruct (sessions_and_owners_are_users lower_ascii toy_digest world3 S)
    as (C & _).
  exact (proj2 (C 0 "alice" eq_refl)).
Defined.

Lemma routes_never_open_conversations_witness :
  api_get_marketplace_data (cookie world3 0) (app world3)
  = Return (Json 200
              (MarketplaceData "alice"
                 (get_all_items_api (marketplace_manager (app world3))) [])).
Proof.
  assert (S : served lower_ascii toy_digest world3)
    by (do 3 apply served_request; constructor).
  exact (proj2 (routes_never_open_conversations lower_ascii toy_digest
                  world3 0 S)).
Defined.

Lemma requests_change_only_their_part_witness :
  cookie (serve lower_ascii toy_digest 0 GetLogout world3) 1 = cookie world3 1.
Proof.
  apply (requests_change_only_their_part lower_ascii toy_digest 0 GetLogout
           world3). discriminate.
Defined.

Lemma register_login_post_listing_witness :
  cookie world2 0 = Some "alice"
  /\ dict_get lamp_id (listings (data (marketplace_manager (app world3))))
     = Some (listing_of lamp "alice" 7).
Proof.
  assert (T : forall k, In k required_fields -> truthy (py_get k lamp) = true).
  { intros k [<-|[<-|[<-|[<-|[]]]]]; reflexivity. }
  assert (Nu : "Alice" <> "") by discriminate.
  assert (Np : "secret" <> "") by discriminate.
  assert (Nl : lower_ascii "Alice" <> "") by discriminate.
  destruct (register_login_post_listing lower_ascii toy_digest 0 start
              alice_credentials lamp "Alice" "secret" 7
              eq_refl eq_refl Nu Np Nl eq_refl T) as (C & _ & L & _).
  split; [exact C|exact L].
Defined.
